(** * Sanchay: bulk-tier pricing, cart, order aggregation and order status

    A shallow embedding of the pricing code of the Sanchay group-buying
    application and the properties its design document states about it.

    Embedded sources:
    - the pricing edge function, [supabase/functions/pricing-calculator/index.ts]
      (module [PricingCalculator]);
    - the [JoinOrderModal] component: cart, line pricing and submission
      (module [JoinOrderModal]);
    - the [CreateOrderModal] component (module [CreateOrderModal]);
    - the [useOrderRealtime] hook (modules [OrderRealtimeDoubles], with the
      total in doubles, and [OrderRealtime]);
    - the status buttons of [OrderManagement] and [confirmPayment] of
      [PaymentReceiptModal] (modules [OrderStatusUi] and [OrderCard], the
      latter with the stored order and the card that shows it apart);
    - the [useRealtime] hook and its filter string (module [Realtime]);
    - the order list query of [OrderManagement] (module [OrderList]);
    - the receipt actions of [PaymentReceiptModal] (module [PaymentReceipt]);
    - the bulk tier handling of [AddInventoryModal] and [EditInventoryModal]
      (module [InventoryForm]).

    Numbers.  A JavaScript [number] is an IEEE double.  In the pricing and
    cart modules finite numbers are idealised as exact rationals ([Q]):
    rounding and overflow of [+], [-] and [*] are not modelled.  What is
    modelled there is where a computation leaves the finite numbers: a
    division by zero gives [NaN] or an infinity, and both survive [toFixed]
    and [parseFloat] and become [null] under [JSON.stringify].  The running
    total of [useOrderRealtime] is stated over binary64 floats, since what
    holds of it depends on the rounding of [+] and [-]. *)

From Stdlib Require Import QArith Qround Qabs Lqa.
From Stdlib Require Import List String Bool Lia ZArith.
From Stdlib Require Import Ascii Sorted.
From Stdlib Require Import Floats.

Set Warnings "-inexact-float".
Import ListNotations.

Open Scope Q_scope.

(* ================================================================== *)
(** * JavaScript numbers and arrays *)

Module Js.

(** The result of a computation that may leave the finite numbers.
    [Infinite] stands for both [Infinity] and [-Infinity]: the sign of an
    infinity depends on the sign of a zero denominator, which the rational
    idealisation does not carry. *)
Inductive number : Type :=
| Finite (q : Q)
| Infinite
| NaN.

(** [a / b] on finite operands. *)
Definition div (a b : Q) : number :=
  if Qeq_bool b 0
  then (if Qeq_bool a 0 then NaN else Infinite)
  else Finite (a / b).

(** [x * k] where [k] is a finite, non-zero constant. *)
Definition times (x : number) (k : Q) : number :=
  match x with
  | Finite q => Finite (q * k)
  | Infinite => Infinite
  | NaN => NaN
  end.

(** [Number.prototype.toFixed(1)] on a finite number, read back as a
    number: the integer [n] with [n / 10] closest to [|x|], the larger one
    on a tie, with the sign of [x] restored.  From [1e21] on [toFixed]
    prints the number itself.  The rounding is that of the exact rational
    [x]: [toFixed] rounds the double the division returned, which agrees
    where that double is the rational itself. *)
Definition round1 (x : Q) : Q :=
  if Qle_bool (1000000000000000000000 # 1) (Qabs x) then x
  else
    let n := Qfloor (Qabs x * 10 + (1 # 2)) in
    if Qle_bool 0 x then (n # 10) else ((- n) # 10).

(** [parseFloat(x.toFixed(1))]: ["NaN"], ["Infinity"] and ["-Infinity"]
    are printed by [toFixed] and parsed back by [parseFloat]. *)
Definition parseFloat_toFixed1 (x : number) : number :=
  match x with
  | Finite q => Finite (round1 q)
  | Infinite => Infinite
  | NaN => NaN
  end.

(** [JSON.stringify] of a number: [NaN] and the infinities become [null]
    (here [None]). *)
Definition json (x : number) : option Q :=
  match x with
  | Finite q => Some q
  | Infinite => None
  | NaN => None
  end.

(** [x] is the finite number [q]. *)
Definition is_finite (x : number) (q : Q) : Prop :=
  match x with
  | Finite p => p == q
  | Infinite => False
  | NaN => False
  end.

(** [x || y] on finite numbers: [0] is falsy. *)
Definition or_else (x y : Q) : Q := if Qeq_bool x 0 then y else x.

Section Arrays.
Context {A : Type}.
Variable compareFn : A -> A -> Q.

(** [Array.prototype.sort(compareFn)].  ECMAScript requires the sort to
    be stable, and for a consistent comparator every stable sort gives
    the same array; it is written here as an insertion sort that puts an
    element in front of the first one it does not have to follow
    ([compareFn x y <= 0]), so equal elements keep their order. *)
Fixpoint insert (x : A) (sorted : list A) : list A :=
  match sorted with
  | [] => [x]
  | y :: rest =>
      if Qle_bool (compareFn x y) 0
      then x :: y :: rest
      else y :: insert x rest
  end.

Definition sort (l : list A) : list A := fold_right insert [] l.
End Arrays.

End Js.

(* ================================================================== *)
(** * Row types ([BulkTier], [InventoryItem]) *)

Module BulkTier.
(** A row of [bulk_tiers]; the fields pricing reads. *)
Record t : Type := mk { min_quantity : Q; price_per_unit : Q }.
End BulkTier.

Module InventoryItem.
(** A row of [inventory] with its embedded bulk tiers.  The embedded
    array is optional in the type ([bulk_tiers?: BulkTier[]]). *)
Record t : Type := mk {
  id : string;
  name : string;
  unit : string;
  base_price : Q;
  minimum_quantity : Q;
  bulk_tiers : option (list BulkTier.t)
}.
End InventoryItem.

(** The filter-and-sort both pricing sites apply to an item's tiers:
    [tiers.filter(tier => quantity >= tier.min_quantity)
          .sort((a, b) => b.min_quantity - a.min_quantity)]
    (pricing-calculator lines 43-45, [calculateItemPrice] lines 573-575). *)
Definition qualifies (quantity : Q) (tier : BulkTier.t) : bool :=
  Qle_bool (BulkTier.min_quantity tier) quantity.

Definition byMinQuantityDesc (a b : BulkTier.t) : Q :=
  BulkTier.min_quantity b - BulkTier.min_quantity a.

Definition sortedTiers (tiers : list BulkTier.t) (quantity : Q) : list BulkTier.t :=
  Js.sort byMinQuantityDesc (filter (qualifies quantity) tiers).

(** The tier both sites take: [sortedTiers[0]], [undefined] (here [None])
    on an empty array. *)
Definition selectedTier (tiers : list BulkTier.t) (quantity : Q) : option BulkTier.t :=
  hd_error (sortedTiers tiers quantity).

(* ================================================================== *)
(** * The pricing edge function *)

Module PricingCalculator.

Record PricingRequest : Type := mkRequest {
  inventory_id : string;
  total_quantity : Q
}.

(** The error object of the Supabase client. *)
Record PostgrestError : Type := mkError { message : string }.

(** The error of [.single()] when the query does not return one row. *)
Definition not_a_single_row : PostgrestError :=
  mkError "JSON object requested, multiple (or no) rows returned".

(** [.eq('id', inventory_id).single()]: the row when exactly one row
    matches, an error otherwise. *)
Definition single (rows : list InventoryItem.t) : InventoryItem.t + PostgrestError :=
  match rows with
  | [row] => inl row
  | _ => inr not_a_single_row
  end.

Definition select_single (table : list InventoryItem.t) (inventory_id : string)
  : InventoryItem.t + PostgrestError :=
  single (filter (fun row => String.eqb (InventoryItem.id row) inventory_id) table).

(** [bestPrice] after lines 39-50. *)
Definition bestPrice (inventory : InventoryItem.t) (total_quantity : Q) : Q :=
  match InventoryItem.bulk_tiers inventory with
  | Some tiers =>
      if (0 <? List.length tiers)%nat then
        match sortedTiers tiers total_quantity with
        | first :: _ => BulkTier.price_per_unit first
        | [] => InventoryItem.base_price inventory
        end
      else InventoryItem.base_price inventory
  | None => InventoryItem.base_price inventory
  end.

Definition originalTotal (inventory : InventoryItem.t) (total_quantity : Q) : Q :=
  InventoryItem.base_price inventory * total_quantity.

Definition discountedTotal (inventory : InventoryItem.t) (total_quantity : Q) : Q :=
  bestPrice inventory total_quantity * total_quantity.

Definition savings (inventory : InventoryItem.t) (total_quantity : Q) : Q :=
  originalTotal inventory total_quantity - discountedTotal inventory total_quantity.

(** [((savings / originalTotal) * 100).toFixed(1)], as read back by the
    [parseFloat] of the response. *)
Definition savingsPercentage (inventory : InventoryItem.t) (total_quantity : Q) : Js.number :=
  Js.parseFloat_toFixed1
    (Js.times (Js.div (savings inventory total_quantity)
                      (originalTotal inventory total_quantity)) 100).

(** [applicable_tier]: the first tier of the item, in array order, that
    qualifies and whose price is [bestPrice]. *)
Definition applicable_tier (inventory : InventoryItem.t) (total_quantity : Q)
  : option BulkTier.t :=
  match InventoryItem.bulk_tiers inventory with
  | Some tiers =>
      find (fun tier => qualifies total_quantity tier
                        && Qeq_bool (BulkTier.price_per_unit tier)
                                    (bestPrice inventory total_quantity)) tiers
  | None => None
  end.

Record PricingResponse : Type := mkResponse {
  r_inventory_id : string;
  r_total_quantity : Q;
  r_base_price : Q;
  r_discounted_price : Q;
  r_total_amount : Q;
  r_savings_amount : Q;
  r_savings_percentage : Js.number;
  r_applicable_tier : option BulkTier.t
}.

Definition response (inventory : InventoryItem.t) (req : PricingRequest) : PricingResponse :=
  let q := total_quantity req in
  {| r_inventory_id := inventory_id req;
     r_total_quantity := q;
     r_base_price := InventoryItem.base_price inventory;
     r_discounted_price := bestPrice inventory q;
     r_total_amount := discountedTotal inventory q;
     r_savings_amount := savings inventory q;
     r_savings_percentage := savingsPercentage inventory q;
     r_applicable_tier := applicable_tier inventory q |}.

(** The HTTP response of the handler: status 200 with the pricing body
    (the default status of [new Response]), or status 400 with
    [{ error: error.message }] from the [catch] branch. *)
Inductive HttpResponse : Type :=
| Priced (status : nat) (body : PricingResponse)
| Failed (status : nat) (error : string).

(** The handler on a request other than [OPTIONS] whose body parsed to
    [req], lines 18-80, over the content of the [inventory] table. *)
Definition serve (table : list InventoryItem.t) (req : PricingRequest) : HttpResponse :=
  match select_single table (inventory_id req) with
  | inr inventoryError => Failed 400 (message inventoryError)
  | inl inventory => Priced 200 (response inventory req)
  end.

End PricingCalculator.

(* ================================================================== *)
(** * Profiles and orders *)

Inductive Role : Type := vendor | supplier.

Module Profile.
Record t : Type := mk { id : string; role : Role }.
End Profile.

(** The [order_status] enumeration of the schema. *)
Inductive OrderStatus : Type :=
| pending | confirmed | preparing | ready | delivered | cancelled.

Module Order.
(** A row of [orders]; the fields the modelled code reads or writes. *)
Record t : Type := mk {
  id : string;
  supplier_id : string;
  total_amount : Q;
  status : OrderStatus
}.
End Order.

(* ================================================================== *)
(** * Creating a group order *)

Module CreateOrderModal.

(** [handleSubmit]: the row inserted into [orders].  Nothing is inserted
    without a profile.  [total_amount: 0, // Will be calculated when items
    are added]. *)
Definition handleSubmit (profile : option Profile.t) (id supplier_id : string)
  : option Order.t :=
  match profile with
  | None => None
  | Some _ =>
      Some {| Order.id := id;
              Order.supplier_id := supplier_id;
              Order.total_amount := 0;
              Order.status := pending |}
  end.

End CreateOrderModal.

(* ================================================================== *)
(** * Joining a group order: cart, line pricing, submission *)

Module CartItem.
Record t : Type := mk {
  inventory_id : string;
  name : string;
  unit : string;
  base_price : Q;
  quantity : Q;
  bulk_tiers : option (list BulkTier.t)
}.

Definition with_quantity (item : t) (q : Q) : t :=
  mk (inventory_id item) (name item) (unit item) (base_price item) q (bulk_tiers item).
End CartItem.

Module ParticipationItem.
(** An element of the [items] array of a participation. *)
Record t : Type := mk {
  inventory_id : string;
  name : string;
  quantity : Q;
  unit_price : Q;
  total_price : Q
}.
End ParticipationItem.

Module Participation.
(** The row inserted into [order_participants]. *)
Record t : Type := mk {
  order_id : string;
  vendor_id : string;
  items : list ParticipationItem.t;
  total_amount : Q;
  confirmed : bool
}.
End Participation.

Module JoinOrderModal.

Definition Cart : Type := list CartItem.t.

Definition is_line_of (inventory_id : string) (cartItem : CartItem.t) : bool :=
  String.eqb (CartItem.inventory_id cartItem) inventory_id.

(** [addToCart], lines 536-555. *)
Definition addToCart (cart : Cart) (item : InventoryItem.t) : Cart :=
  match find (is_line_of (InventoryItem.id item)) cart with
  | Some existingItem =>
      map (fun cartItem =>
             if is_line_of (InventoryItem.id item) cartItem
             then CartItem.with_quantity cartItem (CartItem.quantity cartItem + 1)
             else cartItem) cart
  | None =>
      cart ++ [ {| CartItem.inventory_id := InventoryItem.id item;
                   CartItem.name := InventoryItem.name item;
                   CartItem.unit := InventoryItem.unit item;
                   CartItem.base_price := InventoryItem.base_price item;
                   CartItem.quantity := InventoryItem.minimum_quantity item;
                   CartItem.bulk_tiers := InventoryItem.bulk_tiers item |} ]
  end.

(** [updateQuantity], lines 557-567. *)
Definition updateQuantity (cart : Cart) (inventory_id : string) (quantity : Q) : Cart :=
  if Qle_bool quantity 0
  then filter (fun item => negb (is_line_of inventory_id item)) cart
  else map (fun item =>
              if is_line_of inventory_id item
              then CartItem.with_quantity item quantity
              else item) cart.

(** The local [price] of [calculateItemPrice] when it returns. *)
Definition price (item : CartItem.t) : Q :=
  match CartItem.bulk_tiers item with
  | Some tiers =>
      if (0 <? List.length tiers)%nat then
        match sortedTiers tiers (CartItem.quantity item) with
        | applicableTier :: _ => BulkTier.price_per_unit applicableTier
        | [] => CartItem.base_price item
        end
      else CartItem.base_price item
  | None => CartItem.base_price item
  end.

(** [calculateItemPrice], lines 569-583. *)
Definition calculateItemPrice (item : CartItem.t) : Q :=
  price item * CartItem.quantity item.

(** [getTotalAmount]: [cart.reduce((total, item) => total + calculateItemPrice(item), 0)]. *)
Definition getTotalAmount (cart : Cart) : Q :=
  fold_left (fun total item => total + calculateItemPrice item) cart 0.

(** The [unit_price] expression of [handleSubmit], line 604:
    [item.bulk_tiers?.find(tier => item.quantity >= tier.min_quantity)?.price_per_unit
     || item.base_price]. *)
Definition unit_price (item : CartItem.t) : Q :=
  match CartItem.bulk_tiers item with
  | Some tiers =>
      match find (qualifies (CartItem.quantity item)) tiers with
      | Some tier => Js.or_else (BulkTier.price_per_unit tier) (CartItem.base_price item)
      | None => CartItem.base_price item
      end
  | None => CartItem.base_price item
  end.

Definition participationItem (item : CartItem.t) : ParticipationItem.t :=
  {| ParticipationItem.inventory_id := CartItem.inventory_id item;
     ParticipationItem.name := CartItem.name item;
     ParticipationItem.quantity := CartItem.quantity item;
     ParticipationItem.unit_price := unit_price item;
     ParticipationItem.total_price := calculateItemPrice item |}.

(** [handleSubmit], lines 589-611: the row inserted into
    [order_participants]; nothing is inserted without a profile or with an
    empty cart.  The [orders] row is not written. *)
Definition handleSubmit (profile : option Profile.t) (order : Order.t) (cart : Cart)
  : option Participation.t :=
  match profile with
  | None => None
  | Some p =>
      if (List.length cart =? 0)%nat then None
      else Some {| Participation.order_id := Order.id order;
                   Participation.vendor_id := Profile.id p;
                   Participation.items := map participationItem cart;
                   Participation.total_amount := getTotalAmount cart;
                   Participation.confirmed := false |}
  end.

(** A line a vendor can order: its quantity is positive. *)
Definition positive_quantity (line : CartItem.t) : Prop := 0 < CartItem.quantity line.

(** The cart operations of the modal, and the carts they reach from the
    empty cart of [useState<CartItem[]>([])]. *)
Inductive CartOp : Type :=
| AddToCart (item : InventoryItem.t)
| UpdateQuantity (inventory_id : string) (quantity : Q).

Definition apply (cart : Cart) (op : CartOp) : Cart :=
  match op with
  | AddToCart item => addToCart cart item
  | UpdateQuantity inventory_id quantity => updateQuantity cart inventory_id quantity
  end.

Definition run (ops : list CartOp) : Cart := fold_left apply ops [].

End JoinOrderModal.


(* ================================================================== *)
(** * The realtime view of one order's participants *)

Module OrderRealtime.

(** The participants and the running total of [useOrderRealtime] with the
    amounts read as exact rationals.  This reading serves where a property
    is about which participations are held, or about a total that moves by
    an amount other than 0; what is claimed of the total as the hook
    computes it, in doubles, is in [OrderRealtimeDoubles]. *)

(** A row of [order_participants] as the hook reads it. *)
Record Participant : Type := mkParticipant {
  id : string;
  total_amount : Q
}.

(** The state of [useOrderRealtime]: [participants], [totalAmount], [loading]. *)
Record State : Type := mkState {
  participants : list Participant;
  totalAmount : Q;
  loading : bool
}.

(** [useState([])], [useState(0)], [useState(true)]. *)
Definition initial : State := mkState [] 0 true.

(** [rows.reduce((sum, p) => sum + p.total_amount, 0)]. *)
Definition sum_total_amount (rows : list Participant) : Q :=
  fold_left (fun sum p => sum + total_amount p) rows 0.

(** The [postgres_changes] payloads. *)
Inductive Payload : Type :=
| INSERT (new : Participant)
| UPDATE (new : Participant)
| DELETE (old : Participant).

(** The subscription callback, lines 117-137.  On [UPDATE] the callback
    patches [participants] and calls [fetchParticipants], whose fetch
    resolves later. *)
Definition on_payload (payload : Payload) (s : State) : State :=
  match payload with
  | INSERT new =>
      mkState (participants s ++ [new])
              (totalAmount s + total_amount new)
              (loading s)
  | UPDATE new =>
      mkState (map (fun item => if String.eqb (id item) (id new) then new else item)
                   (participants s))
              (totalAmount s)
              (loading s)
  | DELETE old =>
      mkState (filter (fun item => negb (String.eqb (id item) (id old)))
                      (participants s))
              (totalAmount s - total_amount old)
              (loading s)
  end.

(** The displayed total agrees with the participations held. *)
Definition consistent (s : State) : Prop :=
  totalAmount s == sum_total_amount (participants s).

End OrderRealtime.

(* ================================================================== *)
(** * The status buttons *)

Module OrderStatusUi.

(** [handleUpdateOrderStatus(orderId, status)]: the update writes [status],
    whatever the stored status is. *)
Definition handleUpdateOrderStatus (status : OrderStatus) (order : Order.t) : Order.t :=
  Order.mk (Order.id order) (Order.supplier_id order) (Order.total_amount order) status.

(** [confirmPayment], after the receipt update succeeded:
    [update({ status: 'delivered' })]. *)
Definition confirmPayment (order : Order.t) : Order.t :=
  Order.mk (Order.id order) (Order.supplier_id order) (Order.total_amount order) delivered.

(** The controls that change an order's status: the five supplier buttons of
    the order card and the payment confirmation of the receipt modal. *)
Inductive Control : Type :=
| Confirm | Decline | StartPreparing | MarkReady | MarkDelivered
| ConfirmPayment.

Definition is_role (r : Role) (profile : option Profile.t) : bool :=
  match profile with
  | Some p => match Profile.role p, r with
              | vendor, vendor => true
              | supplier, supplier => true
              | _, _ => false
              end
  | None => false
  end.

Definition is_status (a b : OrderStatus) : bool :=
  match a, b with
  | pending, pending | confirmed, confirmed | preparing, preparing
  | ready, ready | delivered, delivered | cancelled, cancelled => true
  | _, _ => false
  end.

(** When a control is rendered, lines 321-390: the receipt modal, which
    holds the payment confirmation, opens from the [Receipt] button of a
    delivered order of a vendor.  (Inside the modal the confirmation further
    needs a pending receipt and a confirmation code; leaving that out only
    makes the control available more often.) *)
Definition rendered (profile : option Profile.t) (order : Order.t) (c : Control) : bool :=
  match c with
  | Confirm | Decline => is_role supplier profile && is_status (Order.status order) pending
  | StartPreparing => is_role supplier profile && is_status (Order.status order) confirmed
  | MarkReady => is_role supplier profile && is_status (Order.status order) preparing
  | MarkDelivered => is_role supplier profile && is_status (Order.status order) ready
  | ConfirmPayment => is_role vendor profile && is_status (Order.status order) delivered
  end.

(** The [onClick] of each control. *)
Definition onClick (c : Control) (order : Order.t) : Order.t :=
  match c with
  | Confirm => handleUpdateOrderStatus confirmed order
  | Decline => handleUpdateOrderStatus cancelled order
  | StartPreparing => handleUpdateOrderStatus preparing order
  | MarkReady => handleUpdateOrderStatus ready order
  | MarkDelivered => handleUpdateOrderStatus delivered order
  | ConfirmPayment => confirmPayment order
  end.

(** A user with [profile] uses control [c] on a card that shows the stored
    order, and the write goes through to the card: possible only when the
    control is rendered for that order.  Sessions in which the card lags
    behind the stored order are those of [OrderCard]. *)
Definition click (profile : option Profile.t) (c : Control) (order : Order.t)
  : option Order.t :=
  if rendered profile order c then Some (onClick c order) else None.

(** Such clicks one after the other, each on the order as the previous
    click left it. *)
Fixpoint clicks (session : list (option Profile.t * Control)) (order : Order.t)
  : option Order.t :=
  match session with
  | [] => Some order
  | (profile, c) :: rest =>
      match click profile c order with
      | Some order' => clicks rest order'
      | None => None
      end
  end.


End OrderStatusUi.


(* ================================================================== *)
(** * The generic realtime list ([useRealtime]) *)

Module Realtime.

(** [filter.split(/[=.]/)]: the pieces of a string between the characters
    [=] and [.]. *)
Definition is_separator (c : Ascii.ascii) : bool :=
  Ascii.eqb c "="%char || Ascii.eqb c "."%char.

Fixpoint split (s : string) : list string :=
  match s with
  | EmptyString => [EmptyString]
  | String c rest =>
      if is_separator c then EmptyString :: split rest
      else match split rest with
           | piece :: pieces => String c piece :: pieces
           | [] => [String c EmptyString]
           end
  end.

(** [const [column, operation, value] = filter.split(/[=.]/)]: the first
    three pieces, [undefined] (here [None]) where there are fewer. *)
Definition parse_filter (filter : string) : option string * option string * option string :=
  let pieces := split filter in
  (nth_error pieces 0, nth_error pieces 1, nth_error pieces 2).

Section Rows.
Context {Row : Type}.
Variable id : Row -> string.

(** The [postgres_changes] payloads of a table. *)
Inductive Payload : Type :=
| INSERT (new : Row)
| UPDATE (new : Row)
| DELETE (old : Row).

(** The subscription callback on [data], lines 43-59. *)
Definition on_payload (payload : Payload) (data : list Row) : list Row :=
  match payload with
  | INSERT new => data ++ [new]
  | UPDATE new => map (fun item => if String.eqb (id item) (id new) then new else item) data
  | DELETE old => filter (fun item => negb (String.eqb (id item) (id old))) data
  end.

End Rows.

End Realtime.

(* ================================================================== *)
(** * The order list of [OrderManagement] *)

Module OrderList.

Inductive Tab : Type := my_orders | available | history.

(** A row of [orders] as the list query reads it. *)
Record OrderRow : Type := mkRow {
  order : Order.t;
  cluster_id : string;
  created_at : Z
}.

(** A row of [order_participants] and one of [cluster_members], by their keys. *)
Record ParticipantRow : Type := mkParticipantRow { p_order_id : string; p_vendor_id : string }.
Record MemberRow : Type := mkMemberRow { m_cluster_id : string; m_vendor_id : string }.

(** [.in(column, values)] on a string column. *)
Definition is_in (values : list string) (x : string) : bool :=
  existsb (String.eqb x) values.

Definition finished (s : OrderStatus) : bool :=
  match s with
  | delivered | cancelled => true
  | _ => false
  end.

(** The last two steps of the query: the status filter of the tab, lines
    86-90, and [.order('created_at', { ascending: false })]. *)
Definition by_tab_newest_first (activeTab : Tab) (rows : list OrderRow) : list OrderRow :=
  Js.sort (fun a b => inject_Z (created_at b) - inject_Z (created_at a))
    (filter (fun row =>
               match activeTab with
               | history => finished (Order.status (order row))
               | _ => negb (finished (Order.status (order row)))
               end) rows).

(** [fetchOrders], lines 32-95: the rows [setOrders] receives, or [None]
    when there is no profile and [orders] is left as it is. *)
Definition fetchOrders (profile : option Profile.t) (activeTab : Tab)
           (order_participants : list ParticipantRow) (cluster_members : list MemberRow)
           (orders : list OrderRow) : option (list OrderRow) :=
  match profile with
  | None => None
  | Some p =>
      match Profile.role p with
      | vendor =>
          match activeTab with
          | my_orders =>
              let ids := map p_order_id
                             (filter (fun row => String.eqb (p_vendor_id row) (Profile.id p))
                                     order_participants) in
              Some (by_tab_newest_first activeTab
                      (filter (fun row => is_in ids (Order.id (order row))) orders))
          | available =>
              let clusterIds := map m_cluster_id
                                    (filter (fun row => String.eqb (m_vendor_id row) (Profile.id p))
                                            cluster_members) in
              if (0 <? List.length clusterIds)%nat
              then Some (by_tab_newest_first activeTab
                           (filter (fun row =>
                                      is_in clusterIds (cluster_id row)
                                      && OrderStatusUi.is_status (Order.status (order row)) pending)
                                   orders))
              else Some []
          | history => Some (by_tab_newest_first activeTab orders)
          end
      | supplier =>
          Some (by_tab_newest_first activeTab
                  (filter (fun row => String.eqb (Order.supplier_id (order row)) (Profile.id p))
                          orders))
      end
  end.


End OrderList.

(* ================================================================== *)
(** * The payment receipt of an order *)

Module PaymentReceipt.

Inductive PaymentStatus : Type := payment_pending | paid | failed.

(** A row of [payment_receipts]. *)
Record Receipt : Type := mkReceipt {
  order_id : string;
  vendor_id : string;
  supplier_id : string;
  amount : Q;
  receipt_number : string;
  payment_method : string;
  payment_status : PaymentStatus;
  delivery_confirmation_code : option string
}.

(** [generateReceipt], lines 46-77: the row inserted, for the receipt number
    drawn from the clock and [Math.random]; nothing without a profile. *)
Definition generateReceipt (profile : option Profile.t) (order : Order.t)
           (receiptNumber : string) : option Receipt :=
  match profile with
  | None => None
  | Some p =>
      Some {| order_id := Order.id order;
              vendor_id := Profile.id p;
              supplier_id := Order.supplier_id order;
              amount := Order.total_amount order;
              receipt_number := receiptNumber;
              payment_method := "cod";
              payment_status := payment_pending;
              delivery_confirmation_code := None |}
  end.

(** [confirmPayment], lines 79-109, on the stored receipt and order: nothing
    is written without a receipt or with an empty confirmation code;
    otherwise the receipt is marked paid with the code and the order is
    marked delivered. *)
Definition confirmPayment (receipt : option Receipt) (confirmationCode : string)
           (order : Order.t) : option Receipt * Order.t :=
  match receipt with
  | None => (None, order)
  | Some r =>
      if String.eqb confirmationCode EmptyString then (Some r, order)
      else (Some (mkReceipt (order_id r) (vendor_id r) (supplier_id r) (amount r)
                            (receipt_number r) (payment_method r) paid
                            (Some confirmationCode)),
            OrderStatusUi.confirmPayment order)
  end.

(** The modal's two actions. *)
Inductive Action : Type :=
| Generate (profile : option Profile.t) (receiptNumber : string)
| ConfirmWith (confirmationCode : string).

(** One action on the stored receipt and order.  [Generate Receipt] is shown
    only while there is no receipt; the confirmation section is rendered only
    for a receipt whose status is pending. *)
Definition act (state : option Receipt * Order.t) (a : Action) : option Receipt * Order.t :=
  let (receipt, order) := state in
  match a with
  | Generate profile receiptNumber =>
      match receipt with
      | None => (generateReceipt profile order receiptNumber, order)
      | Some _ => state
      end
  | ConfirmWith confirmationCode =>
      match receipt with
      | Some r =>
          match payment_status r with
          | payment_pending => confirmPayment receipt confirmationCode order
          | _ => state
          end
      | None => state
      end
  end.

Definition run (order : Order.t) (actions : list Action) : option Receipt * Order.t :=
  fold_left act actions (None, order).

End PaymentReceipt.

(* ================================================================== *)
(** * The bulk tiers of the inventory forms *)

Module InventoryForm.

(** [x > 0]. *)
Definition positive (x : Q) : bool := negb (Qle_bool x 0).

(** [validTiers], the tiers the forms insert:
    [bulkTiers.filter(tier => tier.min_quantity > 0 && tier.price_per_unit > 0)]. *)
Definition validTiers (bulkTiers : list BulkTier.t) : list BulkTier.t :=
  filter (fun tier => positive (BulkTier.min_quantity tier)
                      && positive (BulkTier.price_per_unit tier)) bulkTiers.

(** The tiers [AddInventoryModal] starts with. *)
Definition initialTiers : list BulkTier.t :=
  [ BulkTier.mk 10 0; BulkTier.mk 25 0; BulkTier.mk 50 0 ].

Inductive Field : Type := min_quantity | price_per_unit.

Definition set_field (tier : BulkTier.t) (field : Field) (value : Q) : BulkTier.t :=
  match field with
  | min_quantity => BulkTier.mk value (BulkTier.price_per_unit tier)
  | price_per_unit => BulkTier.mk (BulkTier.min_quantity tier) value
  end.

(** [prev.map((tier, i) => f(tier, i))] and [prev.filter((_, i) => p(i))],
    with the index counted from [i]. *)
Fixpoint map_from {A B : Type} (f : A -> nat -> B) (i : nat) (l : list A) : list B :=
  match l with
  | [] => []
  | x :: rest => f x i :: map_from f (S i) rest
  end.

Fixpoint filter_from {A : Type} (p : nat -> bool) (i : nat) (l : list A) : list A :=
  match l with
  | [] => []
  | x :: rest => if p i then x :: filter_from p (S i) rest else filter_from p (S i) rest
  end.

(** [updateBulkTier], [addBulkTier], [removeBulkTier], lines 119-131. *)
Definition updateBulkTier (index : nat) (field : Field) (value : Q)
           (prev : list BulkTier.t) : list BulkTier.t :=
  map_from (fun tier i => if (i =? index)%nat then set_field tier field value else tier) 0 prev.

Definition addBulkTier (prev : list BulkTier.t) : list BulkTier.t :=
  prev ++ [BulkTier.mk 0 0].

Definition removeBulkTier (index : nat) (prev : list BulkTier.t) : list BulkTier.t :=
  filter_from (fun i => negb (i =? index)%nat) 0 prev.

(** A tier suggested by the categorizer. *)
Record Suggestion : Type := mkSuggestion {
  s_min_quantity : Q;
  discount_percentage : Q
}.

(** [parseFloat(formData.base_price) || 0] for a field that holds a finite
    number or does not parse ([None]). *)
Definition basePrice (parsed : option Q) : Q :=
  match parsed with
  | Some q => Js.or_else q 0
  | None => 0
  end.

(** [suggestedTiers] of [handleAICategorization]:
    [price_per_unit: basePrice * (1 - tier.discount_percentage / 100)]. *)
Definition suggestedTiers (parsed : option Q) (bulk_tiers : list Suggestion) : list BulkTier.t :=
  map (fun tier => BulkTier.mk (s_min_quantity tier)
                               (basePrice parsed * (1 - discount_percentage tier / 100)))
      bulk_tiers.

(** The tiers the categorizer answers when the AI service fails. *)
Definition fallbackSuggestions : list Suggestion :=
  [ mkSuggestion 10 5; mkSuggestion 25 12; mkSuggestion 50 20 ].

End InventoryForm.

(* ================================================================== *)
(** * The realtime total in doubles *)

Module OrderRealtimeDoubles.

(** [useOrderRealtime], lines 78-147, with [total_amount] and [totalAmount]
    as the IEEE doubles they are: [+] and [-] round to the nearest double. *)
Record Participant : Type := mkParticipant {
  id : string;
  total_amount : float
}.

Record State : Type := mkState {
  participants : list Participant;
  totalAmount : float;
  loading : bool
}.

(** [useState([])], [useState(0)], [useState(true)]. *)
Definition initial : State := mkState [] 0%float true.

(** [x || 0] on a number: [0], [-0] and [NaN] are falsy. *)
Definition or_zero (x : float) : float :=
  if PrimFloat.eqb x 0%float || PrimFloat.is_nan x then 0%float else x.

(** [rows.reduce((sum, p) => sum + p.total_amount, 0)]. *)
Definition sum_total_amount (rows : list Participant) : float :=
  fold_left (fun sum p => (sum + total_amount p)%float) rows 0%float.

(** What the query of [fetchParticipants] resolves to: [{ data, error }]. *)
Inductive FetchResult : Type :=
| FetchError (message : string)
| FetchData (data : option (list Participant)).

(** The continuation of [fetchParticipants] after its [await], lines 95-102. *)
Definition fetchParticipants_resolved (result : FetchResult) (s : State) : State :=
  match result with
  | FetchError _ => mkState (participants s) (totalAmount s) false
  | FetchData data =>
      mkState (match data with Some rows => rows | None => [] end)
              (match data with
               | Some rows => or_zero (sum_total_amount rows)
               | None => 0%float
               end)
              false
  end.

Inductive Payload : Type :=
| INSERT (new : Participant)
| UPDATE (new : Participant)
| DELETE (old : Participant).

(** The subscription callback, lines 117-137.  On [UPDATE] the callback
    patches [participants] and calls [fetchParticipants]; the fetch resolves
    later, as a step of its own. *)
Definition on_payload (payload : Payload) (s : State) : State :=
  match payload with
  | INSERT new =>
      mkState (participants s ++ [new])
              (totalAmount s + total_amount new)%float
              (loading s)
  | UPDATE new =>
      mkState (map (fun item => if String.eqb (id item) (id new) then new else item)
                   (participants s))
              (totalAmount s)
              (loading s)
  | DELETE old =>
      mkState (filter (fun item => negb (String.eqb (id item) (id old)))
                      (participants s))
              (totalAmount s - total_amount old)%float
              (loading s)
  end.

(** A step of the hook: a payload is delivered, or a fetch resolves. *)
Inductive Step : Type :=
| Deliver (payload : Payload)
| Resolve (result : FetchResult).

Definition step (s : State) (e : Step) : State :=
  match e with
  | Deliver payload => on_payload payload s
  | Resolve result => fetchParticipants_resolved result s
  end.

Definition run (s : State) (steps : list Step) : State := fold_left step steps s.

(** The displayed total is the sum, in the order held, of the amounts of the
    participations held: the same double. *)
Definition consistent (s : State) : Prop :=
  totalAmount s = sum_total_amount (participants s).

(** The operations on a participation as the hook sees them complete:
    a join is an [INSERT]; an edit is an [UPDATE] whose refetch resolves with
    the rows [data]; a removal is a [DELETE]. *)
Inductive Operation : Type :=
| Join (new : Participant)
| Edit (new : Participant) (data : option (list Participant))
| Remove (old : Participant).

Definition steps_of (op : Operation) : list Step :=
  match op with
  | Join new => [Deliver (INSERT new)]
  | Edit new data => [Deliver (UPDATE new); Resolve (FetchData data)]
  | Remove old => [Deliver (DELETE old)]
  end.

Definition perform (s : State) (op : Operation) : State := run s (steps_of op).

Definition perform_all (s : State) (ops : list Operation) : State :=
  fold_left perform ops s.

(** The sum of the fetched rows is a number that [|| 0] leaves alone: it is
    not [NaN] (nor [-0]). *)
Definition sum_is_number (data : option (list Participant)) : Prop :=
  match data with
  | Some rows => or_zero (sum_total_amount rows) = sum_total_amount rows
  | None => True
  end.

(** A join, or an edit whose refetched rows sum to a number; not a removal. *)
Definition join_or_refetched_edit (op : Operation) : Prop :=
  match op with
  | Join _ => True
  | Edit _ data => sum_is_number data
  | Remove _ => False
  end.

End OrderRealtimeDoubles.

(* ================================================================== *)
(** * An order card and the stored order *)

Module OrderCard.

(** One browser session on one order: the row of [orders] in the database
    and the element of the component's [orders] state the card is rendered
    from.  The card is what [fetchOrders] last read, patched by [setOrders]. *)
Record View : Type := mkView {
  stored : Order.t;
  card : Order.t
}.

(** How a click ends.  [handleUpdateOrderStatus], lines 104-147, first
    updates the row; on an error of the update it throws and nothing has
    changed; otherwise it awaits the notification request, and only when that
    request is answered does [setOrders] patch the card: when the request
    rejects, the [catch] reports a failure and the card is left as it was. *)
Inductive Outcome : Type :=
| update_failed
| notification_rejected
| notified.

Definition handleUpdateOrderStatus (status : OrderStatus) (outcome : Outcome) (v : View)
  : View :=
  match outcome with
  | update_failed => v
  | notification_rejected =>
      mkView (OrderStatusUi.handleUpdateOrderStatus status (stored v)) (card v)
  | notified =>
      mkView (OrderStatusUi.handleUpdateOrderStatus status (stored v))
             (OrderStatusUi.handleUpdateOrderStatus status (card v))
  end.

(** [confirmPayment] of the receipt modal: the order is written unless an
    update failed; the card is not patched (the modal closes and the list is
    fetched again, see [Refetch]). *)
Definition confirmPayment (outcome : Outcome) (v : View) : View :=
  match outcome with
  | update_failed => v
  | _ => mkView (OrderStatusUi.confirmPayment (stored v)) (card v)
  end.

Definition onClick (c : OrderStatusUi.Control) (outcome : Outcome) (v : View) : View :=
  match c with
  | OrderStatusUi.Confirm => handleUpdateOrderStatus confirmed outcome v
  | OrderStatusUi.Decline => handleUpdateOrderStatus cancelled outcome v
  | OrderStatusUi.StartPreparing => handleUpdateOrderStatus preparing outcome v
  | OrderStatusUi.MarkReady => handleUpdateOrderStatus ready outcome v
  | OrderStatusUi.MarkDelivered => handleUpdateOrderStatus delivered outcome v
  | OrderStatusUi.ConfirmPayment => confirmPayment outcome v
  end.

(** What happens in the session: a user clicks a control, with the outcome
    of the requests it makes, or [fetchOrders] reads the list again. *)
Inductive Event : Type :=
| Click (profile : option Profile.t) (c : OrderStatusUi.Control) (outcome : Outcome)
| Refetch.

(** A control can be clicked when it is rendered for the card. *)
Definition step (v : View) (e : Event) : option View :=
  match e with
  | Click profile c outcome =>
      if OrderStatusUi.rendered profile (card v) c then Some (onClick c outcome v) else None
  | Refetch => Some (mkView (stored v) (stored v))
  end.

Fixpoint run (events : list Event) (v : View) : option View :=
  match events with
  | [] => Some v
  | e :: rest =>
      match step v e with
      | Some v' => run rest v'
      | None => None
      end
  end.




End OrderCard.

(* ================================================================== *)
(** * Scenario data *)

Module Scenario.

(** Base price 100 with tiers 10 -> 90, 25 -> 80, 50 -> 70. *)
Definition tiers : list BulkTier.t :=
  [ BulkTier.mk 10 90; BulkTier.mk 25 80; BulkTier.mk 50 70 ].

Definition rice : InventoryItem.t :=
  InventoryItem.mk "rice" "Rice" "kg" 100 1 (Some tiers).

Definition rice_line (quantity : Q) : CartItem.t :=
  CartItem.mk "rice" "Rice" "kg" 100 quantity (Some tiers).

(** Two tiers with the same threshold, in the two orders the array can have. *)
Definition tied_85_first : list BulkTier.t := [ BulkTier.mk 20 85; BulkTier.mk 20 82 ].
Definition tied_82_first : list BulkTier.t := [ BulkTier.mk 20 82; BulkTier.mk 20 85 ].

(** Two participations of one order, and the second after an edit. *)
Definition p1 : OrderRealtime.Participant := OrderRealtime.mkParticipant "p1" 2400.
Definition p2 : OrderRealtime.Participant := OrderRealtime.mkParticipant "p2" 1600.
Definition p2_edited : OrderRealtime.Participant := OrderRealtime.mkParticipant "p2" 1800.

(** A supplier, a vendor, and an order of that supplier in a given status. *)
Definition the_supplier : Profile.t := Profile.mk "s1" supplier.
Definition the_vendor : Profile.t := Profile.mk "v1" vendor.
Definition order_in (status : OrderStatus) : Order.t := Order.mk "o1" "s1" 0 status.

(** The same two participations in doubles, the edits, and two whose
    amounts are not doubles exactly. *)
Definition w1 : OrderRealtimeDoubles.Participant :=
  OrderRealtimeDoubles.mkParticipant "p1" 2400%float.
Definition w2 : OrderRealtimeDoubles.Participant :=
  OrderRealtimeDoubles.mkParticipant "p2" 1600%float.
Definition w1_edited : OrderRealtimeDoubles.Participant :=
  OrderRealtimeDoubles.mkParticipant "p1" 1800%float.
Definition w2_edited : OrderRealtimeDoubles.Participant :=
  OrderRealtimeDoubles.mkParticipant "p2" 1800%float.
Definition d1 : OrderRealtimeDoubles.Participant :=
  OrderRealtimeDoubles.mkParticipant "p1" 2400.10%float.
Definition d2 : OrderRealtimeDoubles.Participant :=
  OrderRealtimeDoubles.mkParticipant "p2" 1600.20%float.


(** An item without tiers and with base price 0. *)
Definition free_sample : InventoryItem.t :=
  InventoryItem.mk "sample" "Sample" "piece" 0 1 (Some []).

End Scenario.

(* ================================================================== *)
(** * Properties of the array primitives *)

Section SortFacts.
Context {A : Type}.
Variable compareFn : A -> A -> Q.

Lemma insert_In (x y : A) (l : list A) :
  In y (Js.insert compareFn x l) <-> y = x \/ In y l.
Proof.
  induction l as [|z l IH]; simpl.
  - intuition congruence.
  - destruct (Qle_bool (compareFn x z) 0); simpl.
    + intuition congruence.
    + rewrite IH. intuition congruence.
Qed.

Lemma sort_In (y : A) (l : list A) :
  In y (Js.sort compareFn l) <-> In y l.
Proof.
  induction l as [|x l IH]; simpl.
  - tauto.
  - rewrite insert_In, IH. intuition congruence.
Qed.

Lemma sort_nil_inv (l : list A) : Js.sort compareFn l = [] -> l = [].
Proof.
  destruct l as [|x l]; [reflexivity|].
  intros H. assert (Hx : In x (Js.sort compareFn (x :: l))).
  { apply sort_In. now left. }
  rewrite H in Hx. destruct Hx.
Qed.

(** The head of an insertion: the new element when it need not follow the
    old head, the old head otherwise. *)
Lemma insert_head (x : A) (l : list A) :
  hd_error (Js.insert compareFn x l) =
  match hd_error l with
  | None => Some x
  | Some y => if Qle_bool (compareFn x y) 0 then Some x else Some y
  end.
Proof.
  destruct l as [|y l]; simpl; [reflexivity|].
  now destruct (Qle_bool (compareFn x y) 0).
Qed.

End SortFacts.

Lemma qualifies_iff (q : Q) (t : BulkTier.t) :
  qualifies q t = true <-> BulkTier.min_quantity t <= q.
Proof. unfold qualifies. apply Qle_bool_iff. Qed.

Lemma qualifies_false_iff (q : Q) (t : BulkTier.t) :
  qualifies q t = false <-> q < BulkTier.min_quantity t.
Proof.
  unfold qualifies. split; intros H.
  - apply Qnot_le_lt. intros Hle. apply Qle_bool_iff in Hle. congruence.
  - destruct (Qle_bool (BulkTier.min_quantity t) q) eqn:E; [|reflexivity].
    apply Qle_bool_iff in E. lra.
Qed.

(** The head of the descending sort is the first of the elements with the
    largest [min_quantity]: everything in front of it in the input is
    strictly smaller, everything behind it is not larger. *)
Lemma sort_desc_head (l : list BulkTier.t) (first : BulkTier.t) (rest : list BulkTier.t) :
  Js.sort byMinQuantityDesc l = first :: rest ->
  exists before after,
    l = before ++ first :: after
    /\ (forall t, In t before -> BulkTier.min_quantity t < BulkTier.min_quantity first)
    /\ (forall t, In t after -> BulkTier.min_quantity t <= BulkTier.min_quantity first).
Proof.
  revert first rest. induction l as [|x l IH]; intros first rest Hs.
  - discriminate.
  - assert (Hh : hd_error (Js.sort byMinQuantityDesc (x :: l)) = Some first)
      by now rewrite Hs.
    simpl in Hh. rewrite insert_head in Hh.
    destruct (Js.sort byMinQuantityDesc l) as [|y r] eqn:El; simpl in Hh.
    + apply sort_nil_inv in El. subst l. inversion Hh; subst.
      exists [], []. repeat split; intros t [].
    + destruct (IH y r eq_refl) as (b & a & Hl & Hb & Ha).
      destruct (Qle_bool (byMinQuantityDesc x y) 0) eqn:Ec; inversion Hh; subst first.
      * apply Qle_bool_iff in Ec. unfold byMinQuantityDesc in Ec.
        exists [], l. repeat split; [intros t []|].
        intros t Ht. rewrite Hl in Ht. apply in_app_or in Ht.
        destruct Ht as [Ht|[Ht|Ht]].
        -- specialize (Hb t Ht). lra.
        -- subst t. lra.
        -- specialize (Ha t Ht). lra.
      * assert (Hlt : BulkTier.min_quantity x < BulkTier.min_quantity y).
        { apply Qnot_le_lt. intros Hle.
          assert (Hc : byMinQuantityDesc x y <= 0) by (unfold byMinQuantityDesc; lra).
          apply Qle_bool_iff in Hc. congruence. }
        exists (x :: b), a. repeat split.
        -- simpl. now rewrite Hl.
        -- intros t [Ht|Ht]; [now subst t|now apply Hb].
        -- exact Ha.
Qed.

(** A split of a filtered list comes from a split of the list. *)
Lemma filter_split {A : Type} (p : A -> bool) (l : list A) (b' : list A) (x : A) (a' : list A) :
  filter p l = b' ++ x :: a' ->
  exists b a, l = b ++ x :: a /\ filter p b = b' /\ filter p a = a'.
Proof.
  revert b'. induction l as [|y l IH]; intros b' H; simpl in H.
  - destruct b'; discriminate.
  - destruct (p y) eqn:Ep.
    + destruct b' as [|z b']; simpl in H; inversion H; subst.
      * exists [], l. simpl. auto.
      * destruct (IH b' H2) as (b & a & Hl & Hb & Ha).
        exists (z :: b), a. simpl. rewrite Ep, Hb, Hl. auto.
    + destruct (IH b' H) as (b & a & Hl & Hb & Ha).
      exists (y :: b), a. simpl. rewrite Ep, Hl. auto.
Qed.

(** The tier at the head of [sortedTiers]: it is a tier of the item, it
    qualifies, no qualifying tier has a larger [min_quantity], and it is the
    first such tier in the order of the item's array. *)
Lemma sortedTiers_head (tiers : list BulkTier.t) (q : Q) (first : BulkTier.t)
      (rest : list BulkTier.t) :
  sortedTiers tiers q = first :: rest ->
  exists before after,
    tiers = before ++ first :: after
    /\ qualifies q first = true
    /\ (forall t, In t before -> qualifies q t = true ->
                  BulkTier.min_quantity t < BulkTier.min_quantity first)
    /\ (forall t, In t after -> qualifies q t = true ->
                  BulkTier.min_quantity t <= BulkTier.min_quantity first).
Proof.
  unfold sortedTiers. intros Hs.
  destruct (sort_desc_head _ _ _ Hs) as (b' & a' & Hf & Hb & Ha).
  destruct (filter_split _ _ _ _ _ Hf) as (b & a & Hl & Hfb & Hfa).
  exists b, a. split; [exact Hl|]. split.
  - assert (Hin : In first (filter (qualifies q) tiers)).
    { rewrite Hf. apply in_or_app. right. now left. }
    apply filter_In in Hin. tauto.
  - split; intros t Ht Hq.
    + apply Hb. rewrite <- Hfb. apply filter_In. tauto.
    + apply Ha. rewrite <- Hfa. apply filter_In. tauto.
Qed.

Lemma sortedTiers_nil (tiers : list BulkTier.t) (q : Q) :
  sortedTiers tiers q = [] <-> (forall t, In t tiers -> qualifies q t = false).
Proof.
  unfold sortedTiers. split.
  - intros H t Ht. apply sort_nil_inv in H.
    destruct (qualifies q t) eqn:E; [|reflexivity].
    assert (Hin : In t (filter (qualifies q) tiers)) by (apply filter_In; tauto).
    rewrite H in Hin. destruct Hin.
  - intros H.
    assert (Hf : filter (qualifies q) tiers = []).
    { induction tiers as [|x l IH]; simpl; [reflexivity|].
      rewrite (H x (or_introl eq_refl)). apply IH. intros t Ht. apply H. now right. }
    now rewrite Hf.
Qed.

Lemma sortedTiers_head_max (tiers : list BulkTier.t) (q : Q) (first : BulkTier.t)
      (rest : list BulkTier.t) :
  sortedTiers tiers q = first :: rest ->
  In first tiers
  /\ BulkTier.min_quantity first <= q
  /\ (forall t, In t tiers -> BulkTier.min_quantity t <= q ->
                BulkTier.min_quantity t <= BulkTier.min_quantity first).
Proof.
  intros Hs. destruct (sortedTiers_head _ _ _ _ Hs) as (b & a & Hl & Hq & Hb & Ha).
  split; [rewrite Hl; apply in_or_app; right; now left|].
  split; [now apply qualifies_iff|].
  intros t Ht Hle. apply qualifies_iff in Hle.
  rewrite Hl in Ht. apply in_app_or in Ht. destruct Ht as [Ht|[Ht|Ht]].
  - apply Qlt_le_weak. now apply Hb.
  - subst t. apply Qle_refl.
  - now apply Ha.
Qed.


(* ================================================================== *)
(** * Tier resolution *)

Lemma bestPrice_selected (inventory : InventoryItem.t) (tiers : list BulkTier.t) (q : Q) :
  InventoryItem.bulk_tiers inventory = Some tiers ->
  PricingCalculator.bestPrice inventory q =
  match selectedTier tiers q with
  | Some t => BulkTier.price_per_unit t
  | None => InventoryItem.base_price inventory
  end.
Proof.
  intros Ht. unfold PricingCalculator.bestPrice, selectedTier. rewrite Ht.
  destruct tiers as [|x l]; [reflexivity|].
  change (0 <? List.length (x :: l))%nat with true. cbv iota.
  now destruct (sortedTiers (x :: l) q).
Qed.

Lemma price_selected (item : CartItem.t) (tiers : list BulkTier.t) :
  CartItem.bulk_tiers item = Some tiers ->
  JoinOrderModal.price item =
  match selectedTier tiers (CartItem.quantity item) with
  | Some t => BulkTier.price_per_unit t
  | None => CartItem.base_price item
  end.
Proof.
  intros Ht. unfold JoinOrderModal.price, selectedTier. rewrite Ht.
  destruct tiers as [|x l]; [reflexivity|].
  change (0 <? List.length (x :: l))%nat with true. cbv iota.
  now destruct (sortedTiers (x :: l) (CartItem.quantity item)).
Qed.

Lemma selectedTier_Some (tiers : list BulkTier.t) (q : Q) (t : BulkTier.t) :
  selectedTier tiers q = Some t -> exists rest, sortedTiers tiers q = t :: rest.
Proof.
  unfold selectedTier. destruct (sortedTiers tiers q) as [|y r]; simpl; intros H.
  - discriminate.
  - inversion H; subst. now exists r.
Qed.

Lemma selectedTier_None (tiers : list BulkTier.t) (q : Q) :
  selectedTier tiers q = None <-> (forall t, In t tiers -> q < BulkTier.min_quantity t).
Proof.
  unfold selectedTier. split.
  - intros H t Ht. apply qualifies_false_iff.
    destruct (sortedTiers tiers q) eqn:E; [|discriminate].
    now apply (proj1 (sortedTiers_nil tiers q) E).
  - intros H.
    assert (E : sortedTiers tiers q = []).
    { apply sortedTiers_nil. intros t Ht. apply qualifies_false_iff. now apply H. }
    now rewrite E.
Qed.

(** C1.  For every tier set and quantity >= 1, the tier the resolver takes
    is a tier of the item whose [min_quantity] is at most the quantity
    (boundary included) and is the largest among such tiers; a tier is taken
    whenever one qualifies; and both the edge function and the cart price at
    the [price_per_unit] of that tier.  For base price 100, tiers
    10 -> 90, 25 -> 80, 50 -> 70 and quantity 30 the edge function answers
    unit price 80, total 2400 against a base total of 3000, savings 600 and
    20.0 percent, and the cart prices the line at 2400; at quantity exactly
    25 the tier 25 -> 80 already applies. *)
Theorem resolver_selects_deepest_qualifying_tier :
  forall (tiers : list BulkTier.t) (q : Q),
    1 <= q ->
    (forall t, selectedTier tiers q = Some t ->
       In t tiers
       /\ BulkTier.min_quantity t <= q
       /\ (forall t', In t' tiers -> BulkTier.min_quantity t' <= q ->
                      BulkTier.min_quantity t' <= BulkTier.min_quantity t)
       /\ (forall inventory, InventoryItem.bulk_tiers inventory = Some tiers ->
             PricingCalculator.bestPrice inventory q = BulkTier.price_per_unit t
             /\ PricingCalculator.discountedTotal inventory q = BulkTier.price_per_unit t * q)
       /\ (forall item, CartItem.bulk_tiers item = Some tiers -> CartItem.quantity item = q ->
             JoinOrderModal.price item = BulkTier.price_per_unit t
             /\ JoinOrderModal.calculateItemPrice item = BulkTier.price_per_unit t * q))
    /\ ((exists t', In t' tiers /\ BulkTier.min_quantity t' <= q) ->
        exists t, selectedTier tiers q = Some t)
    /\ (selectedTier Scenario.tiers 30 = Some (BulkTier.mk 25 80)
        /\ selectedTier Scenario.tiers 25 = Some (BulkTier.mk 25 80)
        /\ PricingCalculator.bestPrice Scenario.rice 30 == 80
        /\ PricingCalculator.discountedTotal Scenario.rice 30 == 2400
        /\ PricingCalculator.originalTotal Scenario.rice 30 == 3000
        /\ PricingCalculator.savings Scenario.rice 30 == 600
        /\ Js.is_finite (PricingCalculator.savingsPercentage Scenario.rice 30) 20
        /\ JoinOrderModal.calculateItemPrice (Scenario.rice_line 30) == 2400).
Proof.
  intros tiers q _. split; [|split].
  - intros t Hsel. destruct (selectedTier_Some _ _ _ Hsel) as [rest Hs].
    destruct (sortedTiers_head_max _ _ _ _ Hs) as (Hin & Hle & Hmax).
    repeat split; try assumption.
    + rewrite (bestPrice_selected _ _ _ H). now rewrite Hsel.
    + unfold PricingCalculator.discountedTotal.
      rewrite (bestPrice_selected _ _ _ H). now rewrite Hsel.
    + rewrite (price_selected _ _ H), H0. now rewrite Hsel.
    + unfold JoinOrderModal.calculateItemPrice.
      rewrite (price_selected _ _ H), H0. now rewrite Hsel.
  - intros (t' & Hin & Hle).
    destruct (selectedTier tiers q) as [t|] eqn:E; [now exists t|].
    pose proof (proj1 (selectedTier_None tiers q) E t' Hin). lra.
  - repeat split; vm_compute; reflexivity.
Qed.

(** C1, at the scenario: quantity 30 against the tiers 10, 25, 50. *)
Lemma resolver_selects_deepest_qualifying_tier_witness :
  1 <= 30
  /\ PricingCalculator.bestPrice Scenario.rice 30 = 80
  /\ JoinOrderModal.calculateItemPrice (Scenario.rice_line 30) = 80 * 30.
Proof.
  assert (Hq : 1 <= 30) by (vm_compute; discriminate).
  split; [exact Hq|].
  destruct (resolver_selects_deepest_qualifying_tier Scenario.tiers 30 Hq) as [H _].
  destruct (H (BulkTier.mk 25 80) eq_refl) as (_ & _ & _ & Hedge & Hcart).
  split.
  - exact (proj1 (Hedge Scenario.rice eq_refl)).
  - exact (proj2 (Hcart (Scenario.rice_line 30) eq_refl eq_refl)).
Defined.

(** The tier the edge function reports is looked up again by price, so it
    can be another tier than the one that set the price: with 10 -> 80 in
    front of 25 -> 80 and quantity 30 the price comes from 25 -> 80 and the
    response names 10 -> 80.  The price is the same. *)
Remark reported_tier_is_found_by_price :
  let inventory := InventoryItem.mk "oil" "Oil" "l" 100 1
                     (Some [BulkTier.mk 10 80; BulkTier.mk 25 80]) in
  selectedTier [BulkTier.mk 10 80; BulkTier.mk 25 80] 30 = Some (BulkTier.mk 25 80)
  /\ PricingCalculator.applicable_tier inventory 30 = Some (BulkTier.mk 10 80).
Proof. split; reflexivity. Qed.

(** C3, as stated, fails: with the tiers 20 -> 85 and 20 -> 82 in this order
    and quantity 20, both tiers qualify and share the largest
    [min_quantity], and the resolver takes 20 -> 85, not the cheaper
    20 -> 82; the edge function prices at 85. *)
Lemma tie_not_broken_by_lowest_price :
  In (BulkTier.mk 20 82) Scenario.tied_85_first
  /\ qualifies 20 (BulkTier.mk 20 82) = true
  /\ selectedTier Scenario.tied_85_first 20 = Some (BulkTier.mk 20 85)
  /\ selectedTier Scenario.tied_85_first 20 <> Some (BulkTier.mk 20 82)
  /\ PricingCalculator.bestPrice
       (InventoryItem.mk "dal" "Dal" "kg" 100 1 (Some Scenario.tied_85_first)) 20 == 85.
Proof.
  repeat split; try (vm_compute; reflexivity).
  - simpl. right. now left.
  - vm_compute. discriminate.
Qed.

(** C3, amended.  Among the qualifying tiers that share the largest
    [min_quantity] the resolver takes the one that comes first in the item's
    tier array, whatever the prices: every qualifying tier in front of the
    selected one has a strictly smaller [min_quantity], and every qualifying
    tier behind it has none larger.  For the tiers 20 -> 85, 20 -> 82 and
    quantity 20 the selected tier is 20 -> 85; with the array in the other
    order it is 20 -> 82. *)
Theorem tie_broken_by_array_order :
  forall (tiers : list BulkTier.t) (q : Q) (t : BulkTier.t),
    selectedTier tiers q = Some t ->
    (exists before after,
        tiers = before ++ t :: after
        /\ (forall t', In t' before -> BulkTier.min_quantity t' <= q ->
                       BulkTier.min_quantity t' < BulkTier.min_quantity t)
        /\ (forall t', In t' after -> BulkTier.min_quantity t' <= q ->
                       BulkTier.min_quantity t' <= BulkTier.min_quantity t))
    /\ selectedTier Scenario.tied_85_first 20 = Some (BulkTier.mk 20 85)
    /\ selectedTier Scenario.tied_82_first 20 = Some (BulkTier.mk 20 82).
Proof.
  intros tiers q t Hsel. split; [|split; reflexivity].
  destruct (selectedTier_Some _ _ _ Hsel) as [rest Hs].
  destruct (sortedTiers_head _ _ _ _ Hs) as (b & a & Hl & _ & Hb & Ha).
  exists b, a. split; [exact Hl|]. split; intros t' Hin Hle.
  - apply Hb; [exact Hin|now apply qualifies_iff].
  - apply Ha; [exact Hin|now apply qualifies_iff].
Qed.

(** C3, amended, at the two tied tiers. *)
Lemma tie_broken_by_array_order_witness :
  exists before after,
    Scenario.tied_85_first = before ++ BulkTier.mk 20 85 :: after
    /\ (forall t', In t' before -> BulkTier.min_quantity t' <= 20 ->
                   BulkTier.min_quantity t' < 20)
    /\ (forall t', In t' after -> BulkTier.min_quantity t' <= 20 ->
                   BulkTier.min_quantity t' <= 20).
Proof.
  exact (proj1 (tie_broken_by_array_order Scenario.tied_85_first 20
                  (BulkTier.mk 20 85) eq_refl)).
Defined.

(** C7.  For every quantity >= 1 and every item whose tier set is absent,
    empty, or has all thresholds above the quantity, the edge function's
    unit price is the item's [base_price] and it reports no applicable tier;
    the cart prices the line at [base_price] times the quantity.  For the
    scenario item, quantity 5 is priced at the base price 100. *)
Theorem no_qualifying_tier_prices_at_base :
  forall q : Q,
    1 <= q ->
    (forall inventory : InventoryItem.t,
        (forall tiers t, InventoryItem.bulk_tiers inventory = Some tiers ->
                         In t tiers -> q < BulkTier.min_quantity t) ->
        PricingCalculator.bestPrice inventory q = InventoryItem.base_price inventory
        /\ PricingCalculator.applicable_tier inventory q = None)
    /\ (forall item : CartItem.t,
        CartItem.quantity item = q ->
        (forall tiers t, CartItem.bulk_tiers item = Some tiers ->
                         In t tiers -> q < BulkTier.min_quantity t) ->
        JoinOrderModal.price item = CartItem.base_price item
        /\ JoinOrderModal.calculateItemPrice item = CartItem.base_price item * q)
    /\ (forall inventory : InventoryItem.t,
        InventoryItem.bulk_tiers inventory = Some [] ->
        PricingCalculator.bestPrice inventory q = InventoryItem.base_price inventory
        /\ PricingCalculator.applicable_tier inventory q = None)
    /\ PricingCalculator.bestPrice Scenario.rice 5 = 100
    /\ PricingCalculator.applicable_tier Scenario.rice 5 = None.
Proof.
  intros q _.
  assert (Hedge : forall inventory : InventoryItem.t,
             (forall tiers t, InventoryItem.bulk_tiers inventory = Some tiers ->
                              In t tiers -> q < BulkTier.min_quantity t) ->
             PricingCalculator.bestPrice inventory q = InventoryItem.base_price inventory
             /\ PricingCalculator.applicable_tier inventory q = None).
  { intros inventory Hno. split.
    - destruct (InventoryItem.bulk_tiers inventory) as [tiers|] eqn:E.
      + rewrite (bestPrice_selected _ _ _ E).
        now rewrite (proj2 (selectedTier_None tiers q) (fun t => Hno tiers t eq_refl)).
      + unfold PricingCalculator.bestPrice. now rewrite E.
    - unfold PricingCalculator.applicable_tier.
      destruct (InventoryItem.bulk_tiers inventory) as [tiers|] eqn:E; [|reflexivity].
      match goal with |- find ?p tiers = None => destruct (find p tiers) as [t|] eqn:Ef end;
        [|reflexivity].
      apply find_some in Ef. destruct Ef as [Hin Hp].
      apply andb_prop in Hp. destruct Hp as [Hq _].
      apply qualifies_iff in Hq. specialize (Hno tiers t eq_refl Hin). lra. }
  split; [exact Hedge|]. split; [|split].
  - intros item Hq Hno. subst q.
    assert (Hp : JoinOrderModal.price item = CartItem.base_price item).
    { destruct (CartItem.bulk_tiers item) as [tiers|] eqn:E.
      - rewrite (price_selected _ _ E).
        now rewrite (proj2 (selectedTier_None tiers (CartItem.quantity item))
                           (fun t => Hno tiers t eq_refl)).
      - unfold JoinOrderModal.price. now rewrite E. }
    split; [exact Hp|]. unfold JoinOrderModal.calculateItemPrice. now rewrite Hp.
  - intros inventory E. apply Hedge. intros tiers t E'. rewrite E in E'.
    inversion E'; subst. intros [].
  - split; reflexivity.
Qed.

(** C7, at an item without tiers and at a quantity below every threshold. *)
Lemma no_qualifying_tier_prices_at_base_witness :
  1 <= 5
  /\ PricingCalculator.bestPrice Scenario.free_sample 5 = 0
  /\ JoinOrderModal.calculateItemPrice (Scenario.rice_line 5) = 100 * 5.
Proof.
  assert (Hq : 1 <= 5) by (vm_compute; discriminate).
  split; [exact Hq|].
  destruct (no_qualifying_tier_prices_at_base 5 Hq) as (_ & Hcart & Hempty & _).
  split.
  - exact (proj1 (Hempty Scenario.free_sample eq_refl)).
  - refine (proj2 (Hcart (Scenario.rice_line 5) eq_refl _)).
    intros tiers t E Hin. inversion E; subst tiers. clear E.
    simpl in Hin. destruct Hin as [<-|[<-|[<-|[]]]]; vm_compute; reflexivity.
Defined.

(** C8.  Tier selection is monotone in the quantity: for a fixed tier set
    and quantities q1 < q2 that both select a tier, the tier selected for q2
    has a [min_quantity] at least that of the tier selected for q1. *)
Theorem tier_selection_monotone :
  forall (tiers : list BulkTier.t) (q1 q2 : Q) (t1 t2 : BulkTier.t),
    q1 < q2 ->
    selectedTier tiers q1 = Some t1 ->
    selectedTier tiers q2 = Some t2 ->
    BulkTier.min_quantity t1 <= BulkTier.min_quantity t2.
Proof.
  intros tiers q1 q2 t1 t2 Hlt H1 H2.
  destruct (selectedTier_Some _ _ _ H1) as [r1 Hs1].
  destruct (selectedTier_Some _ _ _ H2) as [r2 Hs2].
  destruct (sortedTiers_head_max _ _ _ _ Hs1) as (Hin1 & Hle1 & _).
  destruct (sortedTiers_head_max _ _ _ _ Hs2) as (_ & _ & Hmax2).
  apply Hmax2; [exact Hin1|]. lra.
Qed.

(** C8, at quantities 12 and 30 of the scenario tiers. *)
Lemma tier_selection_monotone_witness :
  12 < 30
  /\ BulkTier.min_quantity (BulkTier.mk 10 90) <= BulkTier.min_quantity (BulkTier.mk 25 80).
Proof.
  assert (Hlt : 12 < 30) by (vm_compute; reflexivity).
  split; [exact Hlt|].
  exact (tier_selection_monotone Scenario.tiers 12 30
           (BulkTier.mk 10 90) (BulkTier.mk 25 80) Hlt eq_refl eq_refl).
Defined.


(* ================================================================== *)
(** * Stored participation lines *)

(** C4, on the code: for the scenario line at quantity 30 the stored
    [unit_price] is 90, the price of the first tier of the array that
    qualifies, while the stored [total_price] is 2400, the quantity at the
    price 80 of the deepest qualifying tier; the stored total is not the
    stored unit price times the quantity. *)
Theorem stored_line_total_is_not_unit_price_times_quantity :
  let line := JoinOrderModal.participationItem (Scenario.rice_line 30) in
  ParticipationItem.quantity line == 30
  /\ ParticipationItem.unit_price line == 90
  /\ ParticipationItem.total_price line == 2400
  /\ ~ ParticipationItem.total_price line
       == ParticipationItem.unit_price line * ParticipationItem.quantity line.
Proof.
  repeat split; try (vm_compute; reflexivity).
  vm_compute. discriminate.
Qed.

(* ================================================================== *)
(** * The edge function's answers *)

Lemma filter_no_match (table : list InventoryItem.t) (wanted : string) :
  (forall row, In row table -> InventoryItem.id row <> wanted) ->
  filter (fun row => String.eqb (InventoryItem.id row) wanted) table = [].
Proof.
  induction table as [|x l IH]; intros H; simpl; [reflexivity|].
  destruct (String.eqb_spec (InventoryItem.id x) wanted) as [E|E].
  - exfalso. exact (H x (or_introl eq_refl) E).
  - apply IH. intros row Hr. apply H. now right.
Qed.

Lemma filter_primary_key (table : list InventoryItem.t) (inventory : InventoryItem.t) :
  NoDup (map InventoryItem.id table) ->
  In inventory table ->
  filter (fun row => String.eqb (InventoryItem.id row) (InventoryItem.id inventory)) table
  = [inventory].
Proof.
  induction table as [|x l IH]; intros Hnd Hin; [destruct Hin|].
  simpl in Hnd. inversion Hnd as [|? ? Hx Hl]; subst. simpl.
  destruct Hin as [->|Hin].
  - rewrite String.eqb_refl. f_equal. apply filter_no_match.
    intros row Hr E. apply Hx. rewrite <- E. now apply in_map.
  - destruct (String.eqb_spec (InventoryItem.id x) (InventoryItem.id inventory)) as [E|E].
    + exfalso. apply Hx. rewrite E. now apply in_map.
    + now apply IH.
Qed.

Lemma serve_found (table : list InventoryItem.t) (inventory : InventoryItem.t)
      (req : PricingCalculator.PricingRequest) :
  NoDup (map InventoryItem.id table) ->
  In inventory table ->
  InventoryItem.id inventory = PricingCalculator.inventory_id req ->
  PricingCalculator.serve table req
  = PricingCalculator.Priced 200 (PricingCalculator.response inventory req).
Proof.
  intros Hnd Hin Hid. unfold PricingCalculator.serve, PricingCalculator.select_single.
  rewrite <- Hid. now rewrite (filter_primary_key _ _ Hnd Hin).
Qed.

Lemma serve_unknown (table : list InventoryItem.t) (req : PricingCalculator.PricingRequest) :
  (forall row, In row table -> InventoryItem.id row <> PricingCalculator.inventory_id req) ->
  PricingCalculator.serve table req
  = PricingCalculator.Failed 400
      (PricingCalculator.message PricingCalculator.not_a_single_row).
Proof.
  intros H. unfold PricingCalculator.serve, PricingCalculator.select_single.
  now rewrite (filter_no_match _ _ H).
Qed.

(** With a zero base price the base total is zero, and the savings are zero
    exactly when the applied price is. *)
Lemma zero_base_totals (inventory : InventoryItem.t) (q : Q) :
  InventoryItem.base_price inventory == 0 ->
  1 <= q ->
  PricingCalculator.originalTotal inventory q == 0
  /\ (PricingCalculator.savings inventory q == 0 <->
      PricingCalculator.bestPrice inventory q == 0).
Proof.
  intros Hb Hq.
  unfold PricingCalculator.savings, PricingCalculator.discountedTotal,
         PricingCalculator.originalTotal.
  set (b := PricingCalculator.bestPrice inventory q).
  rewrite Hb. split; [ring|]. split; intros H.
  - assert (Hz : b * q == 0) by lra.
    apply Qmult_integral in Hz. destruct Hz as [Hz|Hz]; [exact Hz|lra].
  - rewrite H. ring.
Qed.

Lemma Qeq_bool_true (x y : Q) : x == y -> Qeq_bool x y = true.
Proof. apply Qeq_bool_iff. Qed.

Lemma Qeq_bool_false (x y : Q) : ~ x == y -> Qeq_bool x y = false.
Proof.
  intros H. destruct (Qeq_bool x y) eqn:E; [|reflexivity].
  exfalso. apply H. now apply Qeq_bool_iff.
Qed.

(** C5, as stated, fails: for the item with base price 0 and no tiers and
    quantity 1 the computed savings percentage is [NaN], not 0, and leaves
    the response as [null]. *)
Lemma zero_base_price_percentage_is_not_zero :
  InventoryItem.base_price Scenario.free_sample == 0
  /\ PricingCalculator.savingsPercentage Scenario.free_sample 1 = Js.NaN
  /\ ~ Js.is_finite (PricingCalculator.savingsPercentage Scenario.free_sample 1) 0
  /\ Js.json (PricingCalculator.savingsPercentage Scenario.free_sample 1) = None.
Proof.
  repeat split. intros H. exact H.
Qed.

(** C5, amended.  For every item whose base price is 0 and every quantity
    >= 1 the pricing operation raises no error, but the division by the zero
    base total is not guarded and the savings percentage is not 0: it is
    [NaN] when the applied unit price is 0 and an infinity otherwise, never a
    finite number, and it is serialised as [null]. *)
Theorem zero_base_price_percentage_unguarded :
  forall (inventory : InventoryItem.t) (q : Q),
    InventoryItem.base_price inventory == 0 ->
    1 <= q ->
    PricingCalculator.savingsPercentage inventory q
    = (if Qeq_bool (PricingCalculator.bestPrice inventory q) 0 then Js.NaN else Js.Infinite)
    /\ (forall z, ~ Js.is_finite (PricingCalculator.savingsPercentage inventory q) z)
    /\ Js.json (PricingCalculator.savingsPercentage inventory q) = None
    /\ (forall table req,
          NoDup (map InventoryItem.id table) ->
          In inventory table ->
          InventoryItem.id inventory = PricingCalculator.inventory_id req ->
          PricingCalculator.total_quantity req = q ->
          exists body,
            PricingCalculator.serve table req = PricingCalculator.Priced 200 body
            /\ Js.json (PricingCalculator.r_savings_percentage body) = None).
Proof.
  intros inventory q Hb Hq.
  destruct (zero_base_totals inventory q Hb Hq) as [Ho Hs].
  assert (Hval : PricingCalculator.savingsPercentage inventory q
                 = (if Qeq_bool (PricingCalculator.bestPrice inventory q) 0
                    then Js.NaN else Js.Infinite)).
  { unfold PricingCalculator.savingsPercentage, Js.div.
    rewrite (Qeq_bool_true _ _ Ho).
    destruct (Qeq_bool (PricingCalculator.bestPrice inventory q) 0) eqn:Eb.
    - apply Qeq_bool_iff in Eb. now rewrite (Qeq_bool_true _ _ (proj2 Hs Eb)).
    - rewrite Qeq_bool_false; [reflexivity|].
      intros Hs0. apply Hs in Hs0. apply Qeq_bool_iff in Hs0. congruence. }
  assert (Hjson : Js.json (PricingCalculator.savingsPercentage inventory q) = None).
  { rewrite Hval. now destruct (Qeq_bool (PricingCalculator.bestPrice inventory q) 0). }
  split; [exact Hval|]. split; [|split; [exact Hjson|]].
  - intros z. rewrite Hval.
    now destruct (Qeq_bool (PricingCalculator.bestPrice inventory q) 0).
  - intros table req Hnd Hin Hid Htq.
    exists (PricingCalculator.response inventory req). split.
    + now apply serve_found.
    + unfold PricingCalculator.response. simpl. now rewrite Htq.
Qed.

(** C5, amended, at the item with base price 0 and no tiers. *)
Lemma zero_base_price_percentage_unguarded_witness :
  InventoryItem.base_price Scenario.free_sample == 0
  /\ 1 <= 3
  /\ PricingCalculator.savingsPercentage Scenario.free_sample 3 = Js.NaN.
Proof.
  assert (Hb : InventoryItem.base_price Scenario.free_sample == 0) by reflexivity.
  assert (Hq : 1 <= 3) by (vm_compute; discriminate).
  split; [exact Hb|]. split; [exact Hq|].
  exact (proj1 (zero_base_price_percentage_unguarded Scenario.free_sample 3 Hb Hq)).
Defined.

(** C6, as stated, fails: a request for a known item with quantity 0, or
    with quantity -5, is not rejected; the handler answers with status 200
    and a pricing body. *)
Lemma non_positive_quantity_is_priced :
  PricingCalculator.serve [Scenario.rice] (PricingCalculator.mkRequest "rice" 0)
  = PricingCalculator.Priced 200
      (PricingCalculator.response Scenario.rice (PricingCalculator.mkRequest "rice" 0))
  /\ PricingCalculator.serve [Scenario.rice] (PricingCalculator.mkRequest "rice" (-5))
     = PricingCalculator.Priced 200
         (PricingCalculator.response Scenario.rice (PricingCalculator.mkRequest "rice" (-5)))
  /\ forall status error,
       PricingCalculator.serve [Scenario.rice] (PricingCalculator.mkRequest "rice" 0)
       <> PricingCalculator.Failed status error.
Proof.
  split; [reflexivity|]. split; [reflexivity|].
  intros status error. discriminate.
Qed.

(** C6, amended.  The pricing operation fails, with status 400 and the
    message of the lookup error, for every request naming an unknown
    [inventory_id]; for a parsed request this is its only failure.  A request for a known item is
    answered with status 200 whatever its quantity, so a quantity below 1 is
    priced like any other and not rejected.  In particular the operation does
    not fail for an item with zero tiers and zero base price: unit price,
    total and savings are all 0. *)
Theorem pricing_fails_only_on_unknown_item :
  forall (table : list InventoryItem.t) (req : PricingCalculator.PricingRequest),
    NoDup (map InventoryItem.id table) ->
    ((forall row, In row table -> InventoryItem.id row <> PricingCalculator.inventory_id req) ->
     PricingCalculator.serve table req
     = PricingCalculator.Failed 400
         (PricingCalculator.message PricingCalculator.not_a_single_row))
    /\ (forall inventory,
          In inventory table ->
          InventoryItem.id inventory = PricingCalculator.inventory_id req ->
          PricingCalculator.serve table req
          = PricingCalculator.Priced 200 (PricingCalculator.response inventory req))
    /\ (forall inventory,
          In inventory table ->
          InventoryItem.id inventory = PricingCalculator.inventory_id req ->
          InventoryItem.bulk_tiers inventory = Some [] ->
          InventoryItem.base_price inventory == 0 ->
          exists body,
            PricingCalculator.serve table req = PricingCalculator.Priced 200 body
            /\ PricingCalculator.r_discounted_price body == 0
            /\ PricingCalculator.r_total_amount body == 0
            /\ PricingCalculator.r_savings_amount body == 0).
Proof.
  intros table req Hnd. split; [|split].
  - apply serve_unknown.
  - intros inventory Hin Hid. now apply serve_found.
  - intros inventory Hin Hid Ht Hb.
    exists (PricingCalculator.response inventory req).
    split; [now apply serve_found|].
    unfold PricingCalculator.response; simpl.
    unfold PricingCalculator.savings, PricingCalculator.originalTotal,
           PricingCalculator.discountedTotal, PricingCalculator.bestPrice.
    rewrite Ht. simpl. rewrite Hb. repeat split; ring.
Qed.

(** C6, amended, at a one-row table: an unknown id fails, a known id with
    quantity 0 is priced. *)
Lemma pricing_fails_only_on_unknown_item_witness :
  NoDup (map InventoryItem.id [Scenario.rice])
  /\ PricingCalculator.serve [Scenario.rice] (PricingCalculator.mkRequest "wheat" 4)
     = PricingCalculator.Failed 400
         (PricingCalculator.message PricingCalculator.not_a_single_row).
Proof.
  assert (Hnd : NoDup (map InventoryItem.id [Scenario.rice])).
  { simpl. constructor; [intros []|constructor]. }
  split; [exact Hnd|].
  refine (proj1 (pricing_fails_only_on_unknown_item [Scenario.rice]
                   (PricingCalculator.mkRequest "wheat" 4) Hnd) _).
  intros row [<-|[]]. simpl. discriminate.
Defined.


(* ================================================================== *)
(** * The cart *)

Lemma addToCart_positive (cart : JoinOrderModal.Cart) (item : InventoryItem.t) :
  1 <= InventoryItem.minimum_quantity item ->
  Forall JoinOrderModal.positive_quantity cart ->
  Forall JoinOrderModal.positive_quantity (JoinOrderModal.addToCart cart item).
Proof.
  intros Hmin Hcart. unfold JoinOrderModal.addToCart.
  destruct (find (JoinOrderModal.is_line_of (InventoryItem.id item)) cart).
  - apply Forall_forall. intros line Hin. apply in_map_iff in Hin.
    destruct Hin as (old & <- & Hold).
    pose proof (proj1 (Forall_forall JoinOrderModal.positive_quantity cart) Hcart old Hold) as Hpos.
    unfold JoinOrderModal.positive_quantity in *.
    destruct (JoinOrderModal.is_line_of (InventoryItem.id item) old); simpl; lra.
  - apply Forall_app. split; [exact Hcart|].
    constructor; [|constructor]. unfold JoinOrderModal.positive_quantity. simpl. lra.
Qed.

Lemma updateQuantity_positive (cart : JoinOrderModal.Cart) (inventory_id : string) (q : Q) :
  Forall JoinOrderModal.positive_quantity cart ->
  Forall JoinOrderModal.positive_quantity (JoinOrderModal.updateQuantity cart inventory_id q).
Proof.
  intros Hcart. unfold JoinOrderModal.updateQuantity.
  destruct (Qle_bool q 0) eqn:E.
  - apply Forall_forall. intros line Hin. apply filter_In in Hin.
    exact (proj1 (Forall_forall JoinOrderModal.positive_quantity cart) Hcart line (proj1 Hin)).
  - assert (Hq : 0 < q).
    { apply Qnot_le_lt. intros Hle. apply Qle_bool_iff in Hle. congruence. }
    apply Forall_forall. intros line Hin. apply in_map_iff in Hin.
    destruct Hin as (old & <- & Hold).
    pose proof (proj1 (Forall_forall JoinOrderModal.positive_quantity cart) Hcart old Hold) as Hpos.
    unfold JoinOrderModal.positive_quantity in *.
    destruct (JoinOrderModal.is_line_of inventory_id old); simpl; assumption.
Qed.

Lemma fold_apply_positive (ops : list JoinOrderModal.CartOp) (cart : JoinOrderModal.Cart) :
  (forall item, In (JoinOrderModal.AddToCart item) ops ->
                1 <= InventoryItem.minimum_quantity item) ->
  Forall JoinOrderModal.positive_quantity cart ->
  Forall JoinOrderModal.positive_quantity (fold_left JoinOrderModal.apply ops cart).
Proof.
  revert cart. induction ops as [|op ops IH]; intros cart Hmin Hcart; simpl.
  - exact Hcart.
  - apply IH.
    + intros item Hin. apply Hmin. now right.
    + destruct op as [item|inventory_id q]; simpl.
      * apply addToCart_positive; [|exact Hcart]. apply Hmin. now left.
      * now apply updateQuantity_positive.
Qed.


Lemma find_none_of_absent (cart : JoinOrderModal.Cart) (wanted : string) :
  (forall line, In line cart -> CartItem.inventory_id line <> wanted) ->
  find (JoinOrderModal.is_line_of wanted) cart = None.
Proof.
  intros H. destruct (find (JoinOrderModal.is_line_of wanted) cart) as [line|] eqn:E;
    [|reflexivity].
  apply find_some in E. destruct E as [Hin Hp].
  unfold JoinOrderModal.is_line_of in Hp. apply String.eqb_eq in Hp.
  exfalso. exact (H line Hin Hp).
Qed.

(** C10.  Provided every item added has [minimum_quantity] at least 1, every
    cart reached from the empty cart through [addToCart] and
    [updateQuantity] holds only lines of positive quantity; [updateQuantity]
    with a quantity <= 0 removes the lines of that item from the cart and
    changes nothing else; and the line [addToCart] appends for an item not yet
    in the cart starts at the item's [minimum_quantity]. *)
Theorem cart_lines_have_positive_quantity :
  forall ops : list JoinOrderModal.CartOp,
    (forall item, In (JoinOrderModal.AddToCart item) ops ->
                  1 <= InventoryItem.minimum_quantity item) ->
    Forall JoinOrderModal.positive_quantity (JoinOrderModal.run ops)
    /\ (forall cart inventory_id q,
          q <= 0 ->
          JoinOrderModal.updateQuantity cart inventory_id q
          = filter (fun line => negb (String.eqb (CartItem.inventory_id line) inventory_id)) cart
          /\ (forall line, In line (JoinOrderModal.updateQuantity cart inventory_id q) ->
                           CartItem.inventory_id line <> inventory_id))
    /\ (forall cart item,
          (forall line, In line cart -> CartItem.inventory_id line <> InventoryItem.id item) ->
          exists line,
            JoinOrderModal.addToCart cart item = cart ++ [line]
            /\ CartItem.inventory_id line = InventoryItem.id item
            /\ CartItem.quantity line = InventoryItem.minimum_quantity item).
Proof.
  intros ops Hmin. split; [|split].
  - unfold JoinOrderModal.run. apply fold_apply_positive; [exact Hmin|constructor].
  - intros cart inventory_id q Hq. unfold JoinOrderModal.updateQuantity.
    apply Qle_bool_iff in Hq. rewrite Hq. split; [reflexivity|].
    intros line Hin. apply filter_In in Hin. destruct Hin as [_ Hp].
    unfold JoinOrderModal.is_line_of in Hp.
    intros E. apply String.eqb_eq in E. rewrite E in Hp. discriminate.
  - intros cart item Habs. unfold JoinOrderModal.addToCart.
    rewrite (find_none_of_absent _ _ Habs).
    eexists. split; [reflexivity|]. split; reflexivity.
Qed.

(** C10, at a short session: rice is added, raised to 30, added once more,
    and set to 0. *)
Lemma cart_lines_have_positive_quantity_witness :
  Forall JoinOrderModal.positive_quantity
         (JoinOrderModal.run [ JoinOrderModal.AddToCart Scenario.rice;
                               JoinOrderModal.UpdateQuantity "rice" 30;
                               JoinOrderModal.AddToCart Scenario.rice;
                               JoinOrderModal.AddToCart Scenario.free_sample;
                               JoinOrderModal.UpdateQuantity "rice" 0 ]).
Proof.
  refine (proj1 (cart_lines_have_positive_quantity _ _)).
  intros item Hin. simpl in Hin.
  destruct Hin as [E|[E|[E|[E|[E|[]]]]]]; inversion E; subst;
    vm_compute; discriminate.
Defined.


(* ================================================================== *)
(** * The realtime total *)

(** Two doubles that [===] tells apart are different. *)
Lemma float_neq (x y : float) :
  PrimFloat.eqb x y = false -> PrimFloat.eqb x x = true -> x <> y.
Proof. intros Hxy Hxx E. rewrite <- E in Hxy. congruence. Qed.

Section DoublesTotal.
Import OrderRealtimeDoubles.

Lemma sum_after_join (rows : list Participant) (x : Participant) :
  sum_total_amount (rows ++ [x]) = (sum_total_amount rows + total_amount x)%float.
Proof. unfold sum_total_amount. now rewrite fold_left_app. Qed.

Lemma join_consistent (s : State) (new : Participant) :
  consistent s -> consistent (perform s (Join new)).
Proof.
  unfold consistent, perform. simpl. intros H. now rewrite sum_after_join, H.
Qed.

Lemma edit_consistent (s : State) (new : Participant) (data : option (list Participant)) :
  sum_is_number data -> consistent (perform s (Edit new data)).
Proof.
  unfold consistent, perform. destruct data as [rows|]; simpl; intros H.
  - exact H.
  - reflexivity.
Qed.

Lemma perform_consistent (s : State) (op : Operation) :
  consistent s -> join_or_refetched_edit op -> consistent (perform s op).
Proof.
  intros Hs Hop. destruct op as [new|new data|old].
  - now apply join_consistent.
  - now apply edit_consistent.
  - destruct Hop.
Qed.

End DoublesTotal.

(** C2, as stated, fails.  After the join of a participation of 2400 and
    its edit to 1800 the hook holds the edited participation while its total
    is still 2400, until the refetch the edit started resolves.  And after
    the joins of 2400.10 and 1600.20 and the removal of the first, the total
    is (0 + 2400.10 + 1600.20) - 2400.10, the double 1600.2000000000003,
    while the participation left sums to 0 + 1600.20, the double 1600.2: the
    removal patched the total and did not recompute it. *)
Lemma total_drifts_from_sum :
  let edited := OrderRealtimeDoubles.run OrderRealtimeDoubles.initial
                  [ OrderRealtimeDoubles.Deliver (OrderRealtimeDoubles.INSERT Scenario.w1);
                    OrderRealtimeDoubles.Deliver (OrderRealtimeDoubles.UPDATE Scenario.w1_edited) ] in
  let removed := OrderRealtimeDoubles.perform_all OrderRealtimeDoubles.initial
                   [ OrderRealtimeDoubles.Join Scenario.d1;
                     OrderRealtimeDoubles.Join Scenario.d2;
                     OrderRealtimeDoubles.Remove Scenario.d1 ] in
  OrderRealtimeDoubles.totalAmount edited = 2400%float
  /\ OrderRealtimeDoubles.sum_total_amount (OrderRealtimeDoubles.participants edited)
     = 1800%float
  /\ ~ OrderRealtimeDoubles.consistent edited
  /\ OrderRealtimeDoubles.participants removed = [Scenario.d2]
  /\ OrderRealtimeDoubles.totalAmount removed
     = ((0 + 2400.10 + 1600.20) - 2400.10)%float
  /\ OrderRealtimeDoubles.sum_total_amount (OrderRealtimeDoubles.participants removed)
     = (0 + 1600.20)%float
  /\ PrimFloat.eqb (OrderRealtimeDoubles.totalAmount removed)
                   (OrderRealtimeDoubles.sum_total_amount
                      (OrderRealtimeDoubles.participants removed)) = false
  /\ ~ OrderRealtimeDoubles.consistent removed.
Proof.
  repeat split; try reflexivity.
  - apply float_neq; vm_compute; reflexivity.
  - apply float_neq; vm_compute; reflexivity.
Qed.

(** C2, amended.  A group order is created with total 0, and the hook
    starts, with no participations held, at total 0.  A join adds the new
    participation's [total_amount] to the running total and a removal
    subtracts the removed one's from it: both patch the total; only an edit
    recomputes it, as the sum over the rows its refetch returns.  After any
    sequence of joins and of edits whose refetch has resolved with rows (that
    sum to a number), the total is the sum, taken in the order held, of the
    [total_amount] of the participations held, and such an edit makes it so
    whatever the total was before.  With participations of 2400 and 1600 the
    total is 4000, and after the second is edited to 1800 it is 4200. *)
Theorem total_is_sum_after_joins_and_refetched_edits :
  forall (ops : list OrderRealtimeDoubles.Operation) (s : OrderRealtimeDoubles.State),
    OrderRealtimeDoubles.consistent s ->
    Forall OrderRealtimeDoubles.join_or_refetched_edit ops ->
    OrderRealtimeDoubles.consistent (OrderRealtimeDoubles.perform_all s ops)
    /\ OrderRealtimeDoubles.consistent OrderRealtimeDoubles.initial
    /\ (forall profile id supplier_id order,
          CreateOrderModal.handleSubmit profile id supplier_id = Some order ->
          Order.total_amount order = 0 /\ Order.status order = pending)
    /\ (forall s0 new,
          OrderRealtimeDoubles.totalAmount
            (OrderRealtimeDoubles.perform s0 (OrderRealtimeDoubles.Join new))
          = (OrderRealtimeDoubles.totalAmount s0 + OrderRealtimeDoubles.total_amount new)%float)
    /\ (forall s0 old,
          OrderRealtimeDoubles.totalAmount
            (OrderRealtimeDoubles.perform s0 (OrderRealtimeDoubles.Remove old))
          = (OrderRealtimeDoubles.totalAmount s0 - OrderRealtimeDoubles.total_amount old)%float)
    /\ (forall s0 new data,
          OrderRealtimeDoubles.sum_is_number data ->
          OrderRealtimeDoubles.consistent
            (OrderRealtimeDoubles.perform s0 (OrderRealtimeDoubles.Edit new data)))
    /\ (let joined := OrderRealtimeDoubles.perform_all OrderRealtimeDoubles.initial
                        [ OrderRealtimeDoubles.Join Scenario.w1;
                          OrderRealtimeDoubles.Join Scenario.w2 ] in
        let edited := OrderRealtimeDoubles.perform joined
                        (OrderRealtimeDoubles.Edit Scenario.w2_edited
                           (Some [Scenario.w1; Scenario.w2_edited])) in
        OrderRealtimeDoubles.totalAmount joined = 4000%float
        /\ OrderRealtimeDoubles.totalAmount edited = 4200%float).
Proof.
  intros ops s Hs Hops. split.
  - revert s Hs. induction Hops as [|op ops Hop _ IH]; intros s Hs; simpl.
    + exact Hs.
    + apply IH. now apply perform_consistent.
  - split; [reflexivity|]. split; [|split; [|split; [|split]]].
    + intros profile id supplier_id order H. unfold CreateOrderModal.handleSubmit in H.
      destruct profile; inversion H; subst. split; reflexivity.
    + reflexivity.
    + reflexivity.
    + intros s0 new data. apply edit_consistent.
    + split; reflexivity.
Qed.

(** C2, amended, at the two-participant order: two joins and an edit of the
    second. *)
Lemma total_is_sum_after_joins_and_refetched_edits_witness :
  OrderRealtimeDoubles.consistent
    (OrderRealtimeDoubles.perform_all OrderRealtimeDoubles.initial
       [ OrderRealtimeDoubles.Join Scenario.d1;
         OrderRealtimeDoubles.Join Scenario.d2;
         OrderRealtimeDoubles.Edit Scenario.w2_edited (Some [Scenario.d1; Scenario.w2_edited]) ]).
Proof.
  refine (proj1 (total_is_sum_after_joins_and_refetched_edits _
                   OrderRealtimeDoubles.initial _ _)).
  - reflexivity.
  - repeat constructor.
Defined.


(* ================================================================== *)
(** * Order status *)

Section StatusFacts.
Import OrderStatusUi.

Lemma is_status_eq (a b : OrderStatus) : is_status a b = true -> a = b.
Proof. destruct a, b; simpl; intros H; congruence. Qed.

(** What one click does: the control, the role that sees it, the status it
    is rendered for and the status it writes. *)
Lemma click_inv (profile : option Profile.t) (c : Control) (order order' : Order.t) :
  click profile c order = Some order' ->
  Order.id order' = Order.id order
  /\ Order.total_amount order' = Order.total_amount order
  /\ ((is_role supplier profile = true
       /\ ((Order.status order = pending /\ Order.status order' = confirmed)
           \/ (Order.status order = pending /\ Order.status order' = cancelled)
           \/ (Order.status order = confirmed /\ Order.status order' = preparing)
           \/ (Order.status order = preparing /\ Order.status order' = ready)
           \/ (Order.status order = ready /\ Order.status order' = delivered)))
      \/ (is_role vendor profile = true
          /\ Order.status order = delivered /\ Order.status order' = delivered)).
Proof.
  unfold click. destruct (rendered profile order c) eqn:E; [|discriminate].
  intros H. inversion H; subst order'. clear H.
  destruct c; simpl in E; apply andb_prop in E; destruct E as [Hr Hs];
    apply is_status_eq in Hs; simpl; (split; [reflexivity|split; [reflexivity|]]);
    tauto.
Qed.


End StatusFacts.

(** The write itself does not look at the stored status: that a status only
    moves forward rests on which controls are rendered. *)
Remark handleUpdateOrderStatus_writes_any_status (status : OrderStatus) (order : Order.t) :
  Order.status (OrderStatusUi.handleUpdateOrderStatus status order) = status.
Proof. reflexivity. Qed.

(** On a card that shows the stored order, a click whose notification is
    delivered is a click of [OrderStatusUi.click], on the card and on the
    stored order alike. *)
Remark click_on_card_in_step (profile : option Profile.t) (c : OrderStatusUi.Control)
       (order : Order.t) :
  OrderCard.step (OrderCard.mkView order order)
                 (OrderCard.Click profile c OrderCard.notified)
  = option_map (fun order' => OrderCard.mkView order' order')
               (OrderStatusUi.click profile c order).
Proof.
  unfold OrderCard.step, OrderStatusUi.click. simpl.
  destruct (OrderStatusUi.rendered profile order c) eqn:E; [|reflexivity].
  destruct c; try reflexivity.
  simpl in E. apply andb_prop in E. destruct E as [_ Hs]. apply is_status_eq in Hs.
  destruct order as [i s t st]. simpl in *. now subst st.
Qed.








(* ================================================================== *)
(** * Further properties of the edge function *)

(** What [bestPrice] can be: the base price when no tier is taken, the price
    of the selected tier otherwise. *)
Lemma bestPrice_cases (inventory : InventoryItem.t) (q : Q) :
  PricingCalculator.bestPrice inventory q = InventoryItem.base_price inventory
  \/ exists tiers t,
       InventoryItem.bulk_tiers inventory = Some tiers
       /\ selectedTier tiers q = Some t
       /\ In t tiers
       /\ BulkTier.min_quantity t <= q
       /\ PricingCalculator.bestPrice inventory q = BulkTier.price_per_unit t.
Proof.
  destruct (InventoryItem.bulk_tiers inventory) as [tiers|] eqn:E.
  - rewrite (bestPrice_selected _ _ _ E).
    destruct (selectedTier tiers q) as [t|] eqn:Es; [|now left].
    right. exists tiers, t.
    destruct (selectedTier_Some _ _ _ Es) as [rest Hs].
    destruct (sortedTiers_head_max _ _ _ _ Hs) as (Hin & Hle & _). auto.
  - left. unfold PricingCalculator.bestPrice. now rewrite E.
Qed.

Lemma bestPrice_le_base (inventory : InventoryItem.t) (q : Q) :
  (forall tiers t, InventoryItem.bulk_tiers inventory = Some tiers -> In t tiers ->
                   BulkTier.price_per_unit t <= InventoryItem.base_price inventory) ->
  PricingCalculator.bestPrice inventory q <= InventoryItem.base_price inventory.
Proof.
  intros H. destruct (bestPrice_cases inventory q) as [->|(tiers & t & E & _ & Hin & _ & ->)].
  - apply Qle_refl.
  - exact (H tiers t E Hin).
Qed.

(** X1.  When no tier of an item is dearer than its base price, the savings
    the edge function reports are never negative, for every quantity >= 0. *)
Theorem savings_nonnegative_when_tiers_not_dearer :
  forall (inventory : InventoryItem.t) (q : Q),
    0 <= q ->
    (forall tiers t, InventoryItem.bulk_tiers inventory = Some tiers -> In t tiers ->
                     BulkTier.price_per_unit t <= InventoryItem.base_price inventory) ->
    0 <= PricingCalculator.savings inventory q.
Proof.
  intros inventory q Hq Htiers.
  pose proof (bestPrice_le_base inventory q Htiers) as Hle.
  unfold PricingCalculator.savings, PricingCalculator.originalTotal,
         PricingCalculator.discountedTotal.
  set (b := InventoryItem.base_price inventory) in *.
  set (p := PricingCalculator.bestPrice inventory q) in *.
  assert (H : 0 <= (b - p) * q) by (apply Qmult_le_0_compat; lra).
  assert (E : b * q - p * q == (b - p) * q) by ring.
  rewrite E. exact H.
Qed.

Lemma savings_nonnegative_when_tiers_not_dearer_witness :
  0 <= PricingCalculator.savings Scenario.rice 30.
Proof.
  apply savings_nonnegative_when_tiers_not_dearer.
  - vm_compute. discriminate.
  - intros tiers t E Hin. inversion E; subst tiers. clear E.
    simpl in Hin. destruct Hin as [<-|[<-|[<-|[]]]]; vm_compute; discriminate.
Defined.

(** X2.  When no tier is dearer than the base price and a tier with a larger
    threshold is never dearer than one with a smaller threshold, the unit
    price never rises with the quantity. *)
Theorem unit_price_never_rises_with_quantity :
  forall (inventory : InventoryItem.t) (tiers : list BulkTier.t) (q1 q2 : Q),
    InventoryItem.bulk_tiers inventory = Some tiers ->
    (forall t, In t tiers ->
               BulkTier.price_per_unit t <= InventoryItem.base_price inventory) ->
    (forall a b, In a tiers -> In b tiers ->
                 BulkTier.min_quantity a <= BulkTier.min_quantity b ->
                 BulkTier.price_per_unit b <= BulkTier.price_per_unit a) ->
    q1 <= q2 ->
    PricingCalculator.bestPrice inventory q2 <= PricingCalculator.bestPrice inventory q1.
Proof.
  intros inventory tiers q1 q2 E Hbase Hmono Hq.
  rewrite (bestPrice_selected _ _ q1 E).
  destruct (selectedTier tiers q1) as [t1|] eqn:E1.
  - destruct (selectedTier_Some _ _ _ E1) as [r1 Hs1].
    destruct (sortedTiers_head_max _ _ _ _ Hs1) as (Hin1 & Hle1 & _).
    rewrite (bestPrice_selected _ _ q2 E).
    destruct (selectedTier tiers q2) as [t2|] eqn:E2.
    + destruct (selectedTier_Some _ _ _ E2) as [r2 Hs2].
      destruct (sortedTiers_head_max _ _ _ _ Hs2) as (Hin2 & _ & Hmax2).
      apply Hmono; try assumption. apply Hmax2; [exact Hin1|lra].
    + pose proof (proj1 (selectedTier_None tiers q2) E2 t1 Hin1). lra.
  - apply bestPrice_le_base. intros tiers' t E' Hin. rewrite E in E'.
    inversion E'; subst. now apply Hbase.
Qed.

Lemma unit_price_never_rises_with_quantity_witness :
  PricingCalculator.bestPrice Scenario.rice 60 <= PricingCalculator.bestPrice Scenario.rice 12.
Proof.
  apply (unit_price_never_rises_with_quantity Scenario.rice Scenario.tiers 12 60 eq_refl).
  - intros t Hin. simpl in Hin.
    destruct Hin as [<-|[<-|[<-|[]]]]; vm_compute; discriminate.
  - intros a b Ha Hb. simpl in Ha, Hb.
    destruct Ha as [<-|[<-|[<-|[]]]]; destruct Hb as [<-|[<-|[<-|[]]]];
      vm_compute; intros H; try discriminate; exfalso; apply H; reflexivity.
  - vm_compute. discriminate.
Defined.

(** X5.  The tier the response names: there is one exactly when a tier was
    taken, it is a qualifying tier of the item whose price is the unit price
    applied, and its threshold is at most that of the tier taken. *)
Theorem reported_tier_has_applied_price :
  forall (inventory : InventoryItem.t) (tiers : list BulkTier.t) (q : Q),
    InventoryItem.bulk_tiers inventory = Some tiers ->
    (PricingCalculator.applicable_tier inventory q = None <-> selectedTier tiers q = None)
    /\ (forall t,
          PricingCalculator.applicable_tier inventory q = Some t ->
          In t tiers
          /\ BulkTier.min_quantity t <= q
          /\ BulkTier.price_per_unit t == PricingCalculator.bestPrice inventory q
          /\ (forall s, selectedTier tiers q = Some s ->
                        BulkTier.min_quantity t <= BulkTier.min_quantity s)).
Proof.
  intros inventory tiers q E.
  unfold PricingCalculator.applicable_tier. rewrite E.
  set (p := fun tier => qualifies q tier
                        && Qeq_bool (BulkTier.price_per_unit tier)
                                    (PricingCalculator.bestPrice inventory q)).
  split.
  - split; intros H.
    + destruct (selectedTier tiers q) as [s|] eqn:Es; [|reflexivity].
      destruct (selectedTier_Some _ _ _ Es) as [rest Hs].
      destruct (sortedTiers_head_max _ _ _ _ Hs) as (Hin & Hle & _).
      pose proof (find_none p tiers H s Hin) as Hp. unfold p in Hp.
      rewrite (bestPrice_selected _ _ _ E), Es in Hp.
      rewrite (proj2 (qualifies_iff q s) Hle) in Hp.
      rewrite (Qeq_bool_true _ _ (Qeq_refl _)) in Hp. discriminate.
    + destruct (find p tiers) as [t|] eqn:Ef; [|reflexivity].
      apply find_some in Ef. destruct Ef as [Hin Hp]. unfold p in Hp.
      apply andb_prop in Hp. destruct Hp as [Hq _]. apply qualifies_iff in Hq.
      pose proof (proj1 (selectedTier_None tiers q) H t Hin). lra.
  - intros t Ef. apply find_some in Ef. destruct Ef as [Hin Hp]. unfold p in Hp.
    apply andb_prop in Hp. destruct Hp as [Hq Hprice].
    apply qualifies_iff in Hq. apply Qeq_bool_iff in Hprice.
    repeat split; try assumption.
    intros s Es. destruct (selectedTier_Some _ _ _ Es) as [rest Hs].
    destruct (sortedTiers_head_max _ _ _ _ Hs) as (_ & _ & Hmax). now apply Hmax.
Qed.

Lemma reported_tier_has_applied_price_witness :
  In (BulkTier.mk 25 80) Scenario.tiers
  /\ BulkTier.min_quantity (BulkTier.mk 25 80) <= 30
  /\ BulkTier.price_per_unit (BulkTier.mk 25 80)
     == PricingCalculator.bestPrice Scenario.rice 30
  /\ (forall s, selectedTier Scenario.tiers 30 = Some s ->
                BulkTier.min_quantity (BulkTier.mk 25 80) <= BulkTier.min_quantity s).
Proof.
  exact (proj2 (reported_tier_has_applied_price Scenario.rice Scenario.tiers 30 eq_refl)
               (BulkTier.mk 25 80) eq_refl).
Defined.

(** X6.  The cart and the edge function price alike: a cart line that
    carries an item's base price and tiers is priced at the unit price and
    total the edge function answers for the line's quantity; in particular a
    cart holding one item at a quantity q > 0 totals what the edge function
    answers for that item and q. *)
Theorem cart_prices_like_edge_function :
  forall (item : InventoryItem.t) (line : CartItem.t),
    CartItem.base_price line = InventoryItem.base_price item ->
    CartItem.bulk_tiers line = InventoryItem.bulk_tiers item ->
    JoinOrderModal.price line = PricingCalculator.bestPrice item (CartItem.quantity line)
    /\ JoinOrderModal.calculateItemPrice line
       = PricingCalculator.discountedTotal item (CartItem.quantity line)
    /\ (forall q, 0 < q ->
          JoinOrderModal.getTotalAmount
            (JoinOrderModal.updateQuantity (JoinOrderModal.addToCart [] item)
                                           (InventoryItem.id item) q)
          == PricingCalculator.discountedTotal item q).
Proof.
  intros item line Hb Ht.
  assert (Hp : forall l : CartItem.t,
             CartItem.base_price l = InventoryItem.base_price item ->
             CartItem.bulk_tiers l = InventoryItem.bulk_tiers item ->
             JoinOrderModal.price l = PricingCalculator.bestPrice item (CartItem.quantity l)).
  { intros l Hlb Hlt. unfold JoinOrderModal.price, PricingCalculator.bestPrice.
    now rewrite Hlb, Hlt. }
  split; [now apply Hp|]. split.
  - unfold JoinOrderModal.calculateItemPrice, PricingCalculator.discountedTotal.
    now rewrite (Hp line Hb Ht).
  - intros q Hq.
    assert (Hle : Qle_bool q 0 = false).
    { destruct (Qle_bool q 0) eqn:El; [|reflexivity]. apply Qle_bool_iff in El. lra. }
    set (l := CartItem.mk (InventoryItem.id item) (InventoryItem.name item)
                          (InventoryItem.unit item) (InventoryItem.base_price item) q
                          (InventoryItem.bulk_tiers item)).
    assert (Hcart : JoinOrderModal.updateQuantity (JoinOrderModal.addToCart [] item)
                                                  (InventoryItem.id item) q = [l]).
    { unfold JoinOrderModal.addToCart, JoinOrderModal.updateQuantity. simpl.
      rewrite Hle. simpl. unfold JoinOrderModal.is_line_of. simpl.
      now rewrite String.eqb_refl. }
    rewrite Hcart. unfold JoinOrderModal.getTotalAmount. simpl.
    unfold JoinOrderModal.calculateItemPrice, PricingCalculator.discountedTotal.
    rewrite (Hp l eq_refl eq_refl). simpl. ring.
Qed.

Lemma cart_prices_like_edge_function_witness :
  JoinOrderModal.calculateItemPrice (Scenario.rice_line 30)
  = PricingCalculator.discountedTotal Scenario.rice 30.
Proof.
  exact (proj1 (proj2 (cart_prices_like_edge_function Scenario.rice (Scenario.rice_line 30)
                         eq_refl eq_refl))).
Defined.


(* ================================================================== *)
(** * Further properties of the cart and of the submission *)

Lemma with_quantity_id (line : CartItem.t) (q : Q) :
  CartItem.inventory_id (CartItem.with_quantity line q) = CartItem.inventory_id line.
Proof. reflexivity. Qed.

Lemma map_if_ids (cart : JoinOrderModal.Cart) (p : CartItem.t -> bool)
      (f : CartItem.t -> Q) :
  map CartItem.inventory_id
      (map (fun line => if p line then CartItem.with_quantity line (f line) else line) cart)
  = map CartItem.inventory_id cart.
Proof.
  induction cart as [|x l IH]; simpl; [reflexivity|].
  rewrite IH. now destruct (p x).
Qed.

Lemma NoDup_ids_filter (cart : JoinOrderModal.Cart) (p : CartItem.t -> bool) :
  NoDup (map CartItem.inventory_id cart) ->
  NoDup (map CartItem.inventory_id (filter p cart)).
Proof.
  induction cart as [|x l IH]; simpl; intros H; [constructor|].
  inversion H as [|? ? Hx Hl]; subst.
  destruct (p x); simpl; [|now apply IH].
  constructor; [|now apply IH].
  intros Hin. apply Hx. apply in_map_iff in Hin. destruct Hin as (y & Ey & Hy).
  apply filter_In in Hy. rewrite <- Ey. apply in_map. tauto.
Qed.

Lemma find_line_none (cart : JoinOrderModal.Cart) (wanted : string) :
  find (JoinOrderModal.is_line_of wanted) cart = None ->
  ~ In wanted (map CartItem.inventory_id cart).
Proof.
  intros H Hin. apply in_map_iff in Hin. destruct Hin as (line & E & Hl).
  pose proof (find_none _ _ H line Hl) as Hp.
  unfold JoinOrderModal.is_line_of in Hp. rewrite E, String.eqb_refl in Hp. discriminate.
Qed.

Lemma apply_NoDup_ids (cart : JoinOrderModal.Cart) (op : JoinOrderModal.CartOp) :
  NoDup (map CartItem.inventory_id cart) ->
  NoDup (map CartItem.inventory_id (JoinOrderModal.apply cart op)).
Proof.
  intros H. destruct op as [item|inventory_id q]; simpl.
  - unfold JoinOrderModal.addToCart.
    destruct (find (JoinOrderModal.is_line_of (InventoryItem.id item)) cart) eqn:E.
    + rewrite (map_if_ids cart _ (fun line => CartItem.quantity line + 1)). exact H.
    + rewrite map_app. simpl. apply NoDup_app.
      * exact H.
      * constructor; [intros []|constructor].
      * intros a Ha [<-|[]]. exact (find_line_none _ _ E Ha).
  - unfold JoinOrderModal.updateQuantity. destruct (Qle_bool q 0).
    + now apply NoDup_ids_filter.
    + rewrite (map_if_ids cart _ (fun _ => q)). exact H.
Qed.

(** X7.  A cart reached through [addToCart] and [updateQuantity] never holds
    two lines for the same inventory item. *)
Theorem cart_has_one_line_per_item :
  forall ops : list JoinOrderModal.CartOp,
    NoDup (map CartItem.inventory_id (JoinOrderModal.run ops)).
Proof.
  intros ops. unfold JoinOrderModal.run.
  assert (H : forall cart, NoDup (map CartItem.inventory_id cart) ->
                           NoDup (map CartItem.inventory_id
                                      (fold_left JoinOrderModal.apply ops cart))).
  { induction ops as [|op ops IH]; intros cart Hc; simpl; [exact Hc|].
    apply IH. now apply apply_NoDup_ids. }
  apply H. constructor.
Qed.

Lemma cart_total_from (cart : JoinOrderModal.Cart) (a : Q) :
  fold_left (fun total item => total + JoinOrderModal.calculateItemPrice item) cart a
  == a + fold_right Qplus 0 (map JoinOrderModal.calculateItemPrice cart).
Proof.
  revert a. induction cart as [|x l IH]; intros a; simpl.
  - ring.
  - rewrite (IH (a + JoinOrderModal.calculateItemPrice x)). ring.
Qed.

Lemma getTotalAmount_sum (cart : JoinOrderModal.Cart) :
  JoinOrderModal.getTotalAmount cart
  == fold_right Qplus 0 (map JoinOrderModal.calculateItemPrice cart).
Proof. unfold JoinOrderModal.getTotalAmount. rewrite cart_total_from. ring. Qed.

(** X8.  A submitted participation's [total_amount] is the sum of the
    [total_price] of its items, it has one item per cart line, in the order
    of the cart, and it is never empty. *)
Theorem participation_total_is_sum_of_line_totals :
  forall (profile : option Profile.t) (order : Order.t) (cart : JoinOrderModal.Cart)
         (p : Participation.t),
    JoinOrderModal.handleSubmit profile order cart = Some p ->
    Participation.total_amount p
    == fold_right Qplus 0 (map ParticipationItem.total_price (Participation.items p))
    /\ map ParticipationItem.inventory_id (Participation.items p)
       = map CartItem.inventory_id cart
    /\ Participation.items p <> []
    /\ Participation.order_id p = Order.id order.
Proof.
  intros profile order cart p H. unfold JoinOrderModal.handleSubmit in H.
  destruct profile as [pr|]; [|discriminate].
  destruct cart as [|x l]; [discriminate|].
  simpl in H. inversion H; subst p; clear H. simpl.
  split; [|split; [|split]].
  - rewrite (getTotalAmount_sum (x :: l)). simpl. rewrite map_map. reflexivity.
  - f_equal. rewrite map_map. reflexivity.
  - discriminate.
  - reflexivity.
Qed.

Lemma participation_total_is_sum_of_line_totals_witness :
  exists p,
    JoinOrderModal.handleSubmit (Some Scenario.the_vendor) (Scenario.order_in pending)
                                [Scenario.rice_line 30] = Some p
    /\ Participation.total_amount p
       == fold_right Qplus 0 (map ParticipationItem.total_price (Participation.items p)).
Proof.
  eexists. split; [reflexivity|].
  exact (proj1 (participation_total_is_sum_of_line_totals
                  (Some Scenario.the_vendor) (Scenario.order_in pending)
                  [Scenario.rice_line 30] _ eq_refl)).
Defined.

Lemma find_app_skip {A : Type} (p : A -> bool) (before : list A) (x : A) (after : list A) :
  (forall y, In y before -> p y = false) ->
  p x = true ->
  find p (before ++ x :: after) = Some x.
Proof.
  induction before as [|y l IH]; intros Hb Hx; simpl.
  - now rewrite Hx.
  - rewrite (Hb y (or_introl eq_refl)). apply IH; [|exact Hx].
    intros z Hz. apply Hb. now right.
Qed.

Lemma find_all_false {A : Type} (p : A -> bool) (l : list A) :
  (forall y, In y l -> p y = false) -> find p l = None.
Proof.
  induction l as [|y l IH]; intros H; simpl; [reflexivity|].
  rewrite (H y (or_introl eq_refl)). apply IH. intros z Hz. apply H. now right.
Qed.

Lemma sorted_before (R : BulkTier.t -> BulkTier.t -> Prop) (before : list BulkTier.t)
      (x : BulkTier.t) (after : list BulkTier.t) :
  StronglySorted R (before ++ x :: after) ->
  forall y, In y before -> R y x.
Proof.
  induction before as [|z l IH]; intros H y Hy; [destruct Hy|].
  simpl in H. apply StronglySorted_inv in H. destruct H as [Hs Hall].
  destruct Hy as [<-|Hy].
  - apply (proj1 (Forall_forall _ _) Hall). apply in_or_app. right. now left.
  - now apply IH.
Qed.

(** On tiers listed deepest first the first qualifying tier of the array is
    the tier the sort selects. *)
Lemma deepest_first_find (tiers : list BulkTier.t) (q : Q) :
  StronglySorted (fun a b => BulkTier.min_quantity b <= BulkTier.min_quantity a) tiers ->
  find (qualifies q) tiers = selectedTier tiers q.
Proof.
  intros Hsorted. destruct (selectedTier tiers q) as [t|] eqn:E.
  - destruct (selectedTier_Some _ _ _ E) as [rest Hs].
    destruct (sortedTiers_head _ _ _ _ Hs) as (b & a & Hl & Hq & Hb & _).
    rewrite Hl. apply find_app_skip; [|exact Hq].
    intros y Hy. destruct (qualifies q y) eqn:Ey; [|reflexivity].
    rewrite Hl in Hsorted. pose proof (sorted_before _ _ _ _ Hsorted y Hy) as Hge.
    simpl in Hge. specialize (Hb y Hy Ey). lra.
  - apply find_all_false. intros y Hy. apply qualifies_false_iff.
    exact (proj1 (selectedTier_None tiers q) E y Hy).
Qed.

(** X9.  When the tiers of a cart line are listed deepest first (by
    non-increasing [min_quantity]) and none has price 0, the [unit_price]
    stored for the line is the unit price the line was priced at, and the
    stored [total_price] is the stored [unit_price] times the quantity. *)
Theorem stored_unit_price_right_for_tiers_listed_deepest_first :
  forall (line : CartItem.t) (tiers : list BulkTier.t),
    CartItem.bulk_tiers line = Some tiers ->
    StronglySorted (fun a b => BulkTier.min_quantity b <= BulkTier.min_quantity a) tiers ->
    (forall t, In t tiers -> ~ BulkTier.price_per_unit t == 0) ->
    JoinOrderModal.unit_price line = JoinOrderModal.price line
    /\ ParticipationItem.total_price (JoinOrderModal.participationItem line)
       = ParticipationItem.unit_price (JoinOrderModal.participationItem line)
         * ParticipationItem.quantity (JoinOrderModal.participationItem line).
Proof.
  intros line tiers E Hsorted Hnz.
  assert (Hu : JoinOrderModal.unit_price line = JoinOrderModal.price line).
  { unfold JoinOrderModal.unit_price. rewrite E, (price_selected _ _ E).
    rewrite (deepest_first_find tiers (CartItem.quantity line) Hsorted).
    destruct (selectedTier tiers (CartItem.quantity line)) as [t|] eqn:Es; [|reflexivity].
    destruct (selectedTier_Some _ _ _ Es) as [rest Hs].
    destruct (sortedTiers_head_max _ _ _ _ Hs) as (Hin & _ & _).
    unfold Js.or_else. now rewrite (Qeq_bool_false _ _ (Hnz t Hin)). }
  split; [exact Hu|]. simpl. unfold JoinOrderModal.calculateItemPrice. now rewrite Hu.
Qed.

Lemma stored_unit_price_right_for_tiers_listed_deepest_first_witness :
  JoinOrderModal.unit_price
    (CartItem.mk "rice" "Rice" "kg" 100 30 (Some (rev Scenario.tiers)))
  = JoinOrderModal.price
      (CartItem.mk "rice" "Rice" "kg" 100 30 (Some (rev Scenario.tiers))).
Proof.
  refine (proj1 (stored_unit_price_right_for_tiers_listed_deepest_first
                   (CartItem.mk "rice" "Rice" "kg" 100 30 (Some (rev Scenario.tiers)))
                   (rev Scenario.tiers) eq_refl _ _)).
  - simpl. repeat constructor; vm_compute; discriminate.
  - intros t Hin. simpl in Hin.
    destruct Hin as [<-|[<-|[<-|[]]]]; vm_compute; discriminate.
Defined.

(** [updateQuantity] with a quantity > 0 keeps the lines of the cart
    and their order; a line of the item gets the new quantity and every other
    line is left as it was. *)
Theorem updateQuantity_sets_only_the_items_quantity :
  forall (cart : JoinOrderModal.Cart) (inventory_id : string) (q : Q),
    0 < q ->
    map CartItem.inventory_id (JoinOrderModal.updateQuantity cart inventory_id q)
    = map CartItem.inventory_id cart
    /\ (forall line, In line (JoinOrderModal.updateQuantity cart inventory_id q) ->
          (CartItem.inventory_id line = inventory_id /\ CartItem.quantity line = q)
          \/ (CartItem.inventory_id line <> inventory_id /\ In line cart))
    /\ (forall line, In line cart -> CartItem.inventory_id line = inventory_id ->
          In (CartItem.with_quantity line q)
             (JoinOrderModal.updateQuantity cart inventory_id q)).
Proof.
  intros cart inventory_id q Hq. unfold JoinOrderModal.updateQuantity.
  assert (Hle : Qle_bool q 0 = false).
  { destruct (Qle_bool q 0) eqn:El; [|reflexivity]. apply Qle_bool_iff in El. lra. }
  rewrite Hle. split; [|split].
  - apply (map_if_ids cart _ (fun _ => q)).
  - intros line Hin. apply in_map_iff in Hin. destruct Hin as (old & <- & Hold).
    unfold JoinOrderModal.is_line_of.
    destruct (String.eqb_spec (CartItem.inventory_id old) inventory_id) as [E|E].
    + left. split; [exact E|reflexivity].
    + right. split; assumption.
  - intros line Hin E. apply in_map_iff. exists line. split; [|exact Hin].
    unfold JoinOrderModal.is_line_of. now rewrite E, String.eqb_refl.
Qed.

Lemma updateQuantity_sets_only_the_items_quantity_witness :
  map CartItem.inventory_id
      (JoinOrderModal.updateQuantity [Scenario.rice_line 10] "rice" 30)
  = ["rice"%string].
Proof.
  refine (proj1 (updateQuantity_sets_only_the_items_quantity
                   [Scenario.rice_line 10] "rice" 30 _)).
  vm_compute. reflexivity.
Defined.

(** X10.  [updateQuantity] for an item that is not in the cart changes
    nothing, whatever the quantity: no line is added for it. *)
Theorem updateQuantity_of_absent_item_is_identity :
  forall (cart : JoinOrderModal.Cart) (inventory_id : string) (q : Q),
    (forall line, In line cart -> CartItem.inventory_id line <> inventory_id) ->
    JoinOrderModal.updateQuantity cart inventory_id q = cart.
Proof.
  intros cart inventory_id q Habs. unfold JoinOrderModal.updateQuantity.
  assert (Hp : forall line, In line cart -> JoinOrderModal.is_line_of inventory_id line = false).
  { intros line Hin. unfold JoinOrderModal.is_line_of.
    destruct (String.eqb_spec (CartItem.inventory_id line) inventory_id) as [E|E];
      [|reflexivity]. exfalso. exact (Habs line Hin E). }
  clear Habs. destruct (Qle_bool q 0).
  - induction cart as [|x l IH]; simpl; [reflexivity|].
    rewrite (Hp x (or_introl eq_refl)). simpl. f_equal.
    apply IH. intros line Hin. apply Hp. now right.
  - induction cart as [|x l IH]; simpl; [reflexivity|].
    rewrite (Hp x (or_introl eq_refl)). f_equal.
    apply IH. intros line Hin. apply Hp. now right.
Qed.

Lemma updateQuantity_of_absent_item_is_identity_witness :
  JoinOrderModal.updateQuantity [Scenario.rice_line 10] "wheat" 30 = [Scenario.rice_line 10].
Proof.
  apply updateQuantity_of_absent_item_is_identity.
  intros line [<-|[]]. simpl. discriminate.
Defined.

(** X11.  The cart does not hold a line at the item's minimum: for an item
    with [minimum_quantity] above 1, adding it and lowering the line once
    leaves a line below the minimum, and the cart is accepted for
    submission. *)
Theorem cart_goes_below_minimum_quantity :
  forall (item : InventoryItem.t) (p : Profile.t) (order : Order.t),
    1 < InventoryItem.minimum_quantity item ->
    exists line,
      JoinOrderModal.run
        [ JoinOrderModal.AddToCart item;
          JoinOrderModal.UpdateQuantity (InventoryItem.id item)
                                        (InventoryItem.minimum_quantity item - 1) ]
      = [line]
      /\ CartItem.inventory_id line = InventoryItem.id item
      /\ CartItem.quantity line < InventoryItem.minimum_quantity item
      /\ 0 < CartItem.quantity line
      /\ JoinOrderModal.handleSubmit (Some p) order [line] <> None.
Proof.
  intros item p order Hmin.
  assert (Hle : Qle_bool (InventoryItem.minimum_quantity item - 1) 0 = false).
  { destruct (Qle_bool (InventoryItem.minimum_quantity item - 1) 0) eqn:El; [|reflexivity].
    apply Qle_bool_iff in El. lra. }
  eexists. split.
  - unfold JoinOrderModal.run. simpl.
    unfold JoinOrderModal.addToCart, JoinOrderModal.updateQuantity. simpl.
    rewrite Hle. simpl. unfold JoinOrderModal.is_line_of. simpl.
    rewrite String.eqb_refl. reflexivity.
  - simpl. repeat split; try lra. discriminate.
Qed.

Lemma cart_goes_below_minimum_quantity_witness :
  exists line,
    JoinOrderModal.run
      [ JoinOrderModal.AddToCart (InventoryItem.mk "oil" "Oil" "l" 120 5 None);
        JoinOrderModal.UpdateQuantity "oil" (5 - 1) ]
    = [line]
    /\ CartItem.quantity line < 5.
Proof.
  destruct (cart_goes_below_minimum_quantity
              (InventoryItem.mk "oil" "Oil" "l" 120 5 None)
              Scenario.the_vendor (Scenario.order_in pending))
    as (line & Hrun & _ & Hlt & _).
  - vm_compute. reflexivity.
  - exists line. split; [exact Hrun|exact Hlt].
Defined.

(* ================================================================== *)
(** * The realtime lists *)

Section RealtimeRows.
Context {Row : Type}.
Variable id : Row -> string.

Lemma filter_other_ids (data : list Row) (wanted : string) :
  (forall item, In item data -> id item <> wanted) ->
  filter (fun item => negb (String.eqb (id item) wanted)) data = data.
Proof.
  induction data as [|x l IH]; intros H; simpl; [reflexivity|].
  destruct (String.eqb_spec (id x) wanted) as [E|E].
  - exfalso. exact (H x (or_introl eq_refl) E).
  - simpl. f_equal. apply IH. intros item Hin. apply H. now right.
Qed.

(** X13.  In [useRealtime], an [INSERT] of a row whose id is not yet held
    followed by the [DELETE] of that row gives back the list as it was, and
    after a [DELETE] no row with the deleted id is left. *)
Theorem realtime_insert_then_delete_restores :
  forall (data : list Row) (new : Row),
    (forall item, In item data -> id item <> id new) ->
    Realtime.on_payload id (Realtime.DELETE new)
      (Realtime.on_payload id (Realtime.INSERT new) data) = data
    /\ (forall rows item,
          In item (Realtime.on_payload id (Realtime.DELETE new) rows) ->
          id item <> id new /\ In item rows).
Proof.
  intros data new Hfresh. split.
  - simpl. rewrite filter_app. simpl. rewrite String.eqb_refl. simpl.
    rewrite app_nil_r. now apply filter_other_ids.
  - intros rows item Hin. simpl in Hin. apply filter_In in Hin. destruct Hin as [Hin Hp].
    split; [|exact Hin]. intros E. rewrite E, String.eqb_refl in Hp. discriminate.
Qed.

(** X14.  In [useRealtime], an [UPDATE] never changes which ids are held or
    their order; every row with the updated id becomes the new row; and an
    [UPDATE] for an id that is not held changes nothing, so the updated row
    is not taken up. *)
Theorem realtime_update_replaces_in_place :
  forall (data : list Row) (new : Row),
    map id (Realtime.on_payload id (Realtime.UPDATE new) data) = map id data
    /\ (forall item, In item (Realtime.on_payload id (Realtime.UPDATE new) data) ->
                     id item = id new -> item = new)
    /\ ((forall item, In item data -> id item <> id new) ->
        Realtime.on_payload id (Realtime.UPDATE new) data = data).
Proof.
  intros data new. simpl. split; [|split].
  - induction data as [|x l IH]; simpl; [reflexivity|]. rewrite IH. f_equal.
    destruct (String.eqb_spec (id x) (id new)) as [E|E]; congruence.
  - intros item Hin E. apply in_map_iff in Hin. destruct Hin as (old & Eo & _).
    destruct (String.eqb_spec (id old) (id new)) as [E'|E']; [congruence|].
    subst item. contradiction.
  - intros Habs. induction data as [|x l IH]; simpl; [reflexivity|].
    destruct (String.eqb_spec (id x) (id new)) as [E|E].
    + exfalso. exact (Habs x (or_introl eq_refl) E).
    + f_equal. apply IH. intros item Hin. apply Habs. now right.
Qed.

End RealtimeRows.

Lemma realtime_insert_then_delete_restores_witness :
  Realtime.on_payload OrderRealtime.id (Realtime.DELETE Scenario.p2)
    (Realtime.on_payload OrderRealtime.id (Realtime.INSERT Scenario.p2) [Scenario.p1])
  = [Scenario.p1].
Proof.
  refine (proj1 (realtime_insert_then_delete_restores OrderRealtime.id
                   [Scenario.p1] Scenario.p2 _)).
  intros item [<-|[]]. simpl. discriminate.
Defined.

Lemma realtime_update_replaces_in_place_witness :
  Realtime.on_payload OrderRealtime.id (Realtime.UPDATE Scenario.p2_edited) [Scenario.p1]
  = [Scenario.p1].
Proof.
  refine (proj2 (proj2 (realtime_update_replaces_in_place OrderRealtime.id
                          [Scenario.p1] Scenario.p2_edited)) _).
  intros item [<-|[]]. simpl. discriminate.
Defined.

(** A string without [=] and [.]. *)
Lemma split_plain (a : string) :
  Forall (fun c => Realtime.is_separator c = false) (list_ascii_of_string a) ->
  Realtime.split a = [a].
Proof.
  induction a as [|x a IH]; simpl; intros H; [reflexivity|].
  inversion H as [|? ? Hx Ha]; subst. rewrite Hx, (IH Ha). reflexivity.
Qed.

Lemma split_at_separator (a : string) (c : Ascii.ascii) (rest : string) :
  Forall (fun c => Realtime.is_separator c = false) (list_ascii_of_string a) ->
  Realtime.is_separator c = true ->
  Realtime.split (a ++ String c rest) = a :: Realtime.split rest.
Proof.
  intros Ha Hc. induction a as [|x a IH]; simpl.
  - now rewrite Hc.
  - inversion Ha as [|? ? Hx Ha']; subst. rewrite Hx, (IH Ha'). reflexivity.
Qed.

(** X15.  The filter string of [useRealtime] is read back as written: for a
    column, an operation and a value without [=] and [.], the filter
    [column=operation.value] parses to these three; a string without
    separators parses to a column alone. *)
Theorem parse_filter_round_trip :
  forall column operation value : string,
    Forall (fun c => Realtime.is_separator c = false) (list_ascii_of_string column) ->
    Forall (fun c => Realtime.is_separator c = false) (list_ascii_of_string operation) ->
    Forall (fun c => Realtime.is_separator c = false) (list_ascii_of_string value) ->
    Realtime.parse_filter (column ++ String "="%char (operation ++ String "."%char value))
    = (Some column, Some operation, Some value)
    /\ Realtime.parse_filter column = (Some column, None, None).
Proof.
  intros column operation value Hc Ho Hv. unfold Realtime.parse_filter. split.
  - rewrite (split_at_separator column "="%char _ Hc eq_refl).
    rewrite (split_at_separator operation "."%char _ Ho eq_refl).
    rewrite (split_plain value Hv). reflexivity.
  - rewrite (split_plain column Hc). reflexivity.
Qed.

Lemma parse_filter_round_trip_witness :
  Realtime.parse_filter "order_id=eq.o1" = (Some "order_id", Some "eq", Some "o1")%string.
Proof.
  refine (proj1 (parse_filter_round_trip "order_id" "eq" "o1" _ _ _));
    simpl; repeat constructor.
Defined.

(** X16.  A filter value that itself contains [.] or [=] is cut at that
    character: only the part in front of it reaches the initial query. *)
Theorem parse_filter_cuts_value_at_separator :
  forall (column operation value : string) (c : Ascii.ascii) (rest : string),
    Forall (fun c => Realtime.is_separator c = false) (list_ascii_of_string column) ->
    Forall (fun c => Realtime.is_separator c = false) (list_ascii_of_string operation) ->
    Forall (fun c => Realtime.is_separator c = false) (list_ascii_of_string value) ->
    Realtime.is_separator c = true ->
    Realtime.parse_filter
      (column ++ String "="%char (operation ++ String "."%char (value ++ String c rest)))
    = (Some column, Some operation, Some value).
Proof.
  intros column operation value c rest Hc Ho Hv Hsep. unfold Realtime.parse_filter.
  rewrite (split_at_separator column "="%char _ Hc eq_refl).
  rewrite (split_at_separator operation "."%char _ Ho eq_refl).
  rewrite (split_at_separator value c rest Hv Hsep). reflexivity.
Qed.

Lemma parse_filter_cuts_value_at_separator_witness :
  Realtime.parse_filter "total_amount=eq.10.50"
  = (Some "total_amount", Some "eq", Some "10")%string.
Proof.
  refine (parse_filter_cuts_value_at_separator "total_amount" "eq" "10" "."%char "50" _ _ _ _);
    simpl; repeat constructor.
Defined.

(** X17.  In [useOrderRealtime], the join of a participation whose id is not
    held followed by its removal restores the participants, but the total is
    patched twice and becomes (t + a) - a, which in doubles need not be t:
    after 0.1 is joined, joining and removing 0.7 leaves the total at
    0.09999999999999998 while the participation held still sums to 0.1. *)
Theorem join_then_remove_restores :
  forall (s : OrderRealtimeDoubles.State) (new : OrderRealtimeDoubles.Participant),
    (forall item, In item (OrderRealtimeDoubles.participants s) ->
                  OrderRealtimeDoubles.id item <> OrderRealtimeDoubles.id new) ->
    let s' := OrderRealtimeDoubles.perform_all s
                [ OrderRealtimeDoubles.Join new; OrderRealtimeDoubles.Remove new ] in
    OrderRealtimeDoubles.participants s' = OrderRealtimeDoubles.participants s
    /\ OrderRealtimeDoubles.totalAmount s'
       = ((OrderRealtimeDoubles.totalAmount s + OrderRealtimeDoubles.total_amount new)
          - OrderRealtimeDoubles.total_amount new)%float
    /\ OrderRealtimeDoubles.loading s' = OrderRealtimeDoubles.loading s
    /\ (let a := OrderRealtimeDoubles.mkParticipant "a" 0.1%float in
        let b := OrderRealtimeDoubles.mkParticipant "b" 0.7%float in
        let held := OrderRealtimeDoubles.perform OrderRealtimeDoubles.initial
                      (OrderRealtimeDoubles.Join a) in
        let back := OrderRealtimeDoubles.perform_all held
                      [ OrderRealtimeDoubles.Join b; OrderRealtimeDoubles.Remove b ] in
        OrderRealtimeDoubles.consistent held
        /\ OrderRealtimeDoubles.participants back = OrderRealtimeDoubles.participants held
        /\ OrderRealtimeDoubles.totalAmount back <> OrderRealtimeDoubles.totalAmount held
        /\ ~ OrderRealtimeDoubles.consistent back).
Proof.
  intros s new Hfresh s'. subst s'. simpl. split; [|split; [|split]].
  - rewrite filter_app. simpl. rewrite String.eqb_refl. simpl. rewrite app_nil_r.
    now apply (filter_other_ids OrderRealtimeDoubles.id).
  - reflexivity.
  - reflexivity.
  - repeat split; try reflexivity; apply float_neq; vm_compute; reflexivity.
Qed.

Lemma join_then_remove_restores_witness :
  OrderRealtimeDoubles.participants
    (OrderRealtimeDoubles.perform_all OrderRealtimeDoubles.initial
       [ OrderRealtimeDoubles.Join Scenario.d1; OrderRealtimeDoubles.Remove Scenario.d1 ])
  = [].
Proof.
  refine (proj1 (join_then_remove_restores OrderRealtimeDoubles.initial Scenario.d1 _)).
  intros item [].
Defined.

(** X18.  In [useOrderRealtime], a [DELETE] for an id that is not held
    leaves the participants as they are and still subtracts the payload's
    amount: if the total agreed with the participants before and the amount
    is not 0, it no longer does. *)
Theorem remove_of_unheld_participation_drifts :
  forall (s : OrderRealtime.State) (old : OrderRealtime.Participant),
    (forall item, In item (OrderRealtime.participants s) ->
                  OrderRealtime.id item <> OrderRealtime.id old) ->
    OrderRealtime.consistent s ->
    ~ OrderRealtime.total_amount old == 0 ->
    let s' := OrderRealtime.on_payload (OrderRealtime.DELETE old) s in
    OrderRealtime.participants s' = OrderRealtime.participants s
    /\ ~ OrderRealtime.consistent s'.
Proof.
  intros s old Habs Hs Hnz s'. subst s'.
  assert (Hp : OrderRealtime.participants (OrderRealtime.on_payload (OrderRealtime.DELETE old) s)
               = OrderRealtime.participants s).
  { simpl. now apply filter_other_ids. }
  split; [exact Hp|].
  unfold OrderRealtime.consistent in *. rewrite Hp. simpl. intros H.
  apply Hnz. rewrite <- Hs in H. lra.
Qed.

Lemma remove_of_unheld_participation_drifts_witness :
  OrderRealtime.participants
    (OrderRealtime.on_payload (OrderRealtime.DELETE Scenario.p1) OrderRealtime.initial)
  = OrderRealtime.participants OrderRealtime.initial
  /\ ~ OrderRealtime.consistent
        (OrderRealtime.on_payload (OrderRealtime.DELETE Scenario.p1) OrderRealtime.initial).
Proof.
  refine (remove_of_unheld_participation_drifts OrderRealtime.initial Scenario.p1 _ _ _).
  - intros item [].
  - reflexivity.
  - vm_compute. discriminate.
Defined.


(* ================================================================== *)
(** * Further properties of the status controls *)

Lemma click_keeps_row (profile : option Profile.t) (c : OrderStatusUi.Control)
      (order order' : Order.t) :
  OrderStatusUi.click profile c order = Some order' ->
  Order.id order' = Order.id order
  /\ Order.supplier_id order' = Order.supplier_id order
  /\ Order.total_amount order' = Order.total_amount order.
Proof.
  unfold OrderStatusUi.click. destruct (OrderStatusUi.rendered profile order c); [|discriminate].
  intros H. inversion H; subst order'. now destruct c.
Qed.

Lemma is_role_supplier_not_vendor (p : Profile.t) :
  Profile.role p = vendor -> OrderStatusUi.is_role supplier (Some p) = false.
Proof. intros E. simpl. now rewrite E. Qed.




(** X20.  No click changes an order's id, supplier or [total_amount], and a
    click by a vendor leaves the order exactly as it was. *)
Theorem vendor_clicks_change_nothing :
  forall (profile : option Profile.t) (c : OrderStatusUi.Control) (order order' : Order.t),
    OrderStatusUi.click profile c order = Some order' ->
    Order.id order' = Order.id order
    /\ Order.supplier_id order' = Order.supplier_id order
    /\ Order.total_amount order' = Order.total_amount order
    /\ (forall p, profile = Some p -> Profile.role p = vendor -> order' = order).
Proof.
  intros profile c order order' H.
  destruct (click_keeps_row _ _ _ _ H) as (Hid & Hsup & Htot).
  repeat split; try assumption.
  intros p -> Hrole.
  destruct (click_inv _ _ _ _ H) as (_ & _ & Hcases).
  destruct Hcases as [[Hr _]|[_ [E1 E2]]].
  - rewrite (is_role_supplier_not_vendor p Hrole) in Hr. discriminate.
  - destruct order as [i s t st], order' as [i' s' t' st']. simpl in *. congruence.
Qed.

Lemma vendor_clicks_change_nothing_witness :
  Order.total_amount (Scenario.order_in confirmed)
  = Order.total_amount (Scenario.order_in pending).
Proof.
  exact (proj1 (proj2 (proj2 (vendor_clicks_change_nothing
                                (Some Scenario.the_supplier) OrderStatusUi.Confirm
                                (Scenario.order_in pending) (Scenario.order_in confirmed)
                                eq_refl)))).
Defined.




(* ================================================================== *)
(** * The order list *)

Lemma by_tab_In (activeTab : OrderList.Tab) (rows : list OrderList.OrderRow)
      (row : OrderList.OrderRow) :
  In row (OrderList.by_tab_newest_first activeTab rows)
  <-> In row rows
      /\ OrderList.finished (Order.status (OrderList.order row))
         = match activeTab with OrderList.history => true | _ => false end.
Proof.
  unfold OrderList.by_tab_newest_first. rewrite sort_In, filter_In.
  destruct activeTab, (OrderList.finished (Order.status (OrderList.order row)));
    simpl; intuition congruence.
Qed.





(** Each order of a supplier is in exactly one of the supplier's two
    lists: the active list while it is neither delivered nor cancelled, the
    history afterwards. *)
Theorem supplier_orders_split_between_active_and_history :
  forall (p : Profile.t) (order_participants : list OrderList.ParticipantRow)
         (cluster_members : list OrderList.MemberRow)
         (orders : list OrderList.OrderRow) (row : OrderList.OrderRow),
    Profile.role p = supplier ->
    In row orders ->
    Order.supplier_id (OrderList.order row) = Profile.id p ->
    exists active past,
      OrderList.fetchOrders (Some p) OrderList.my_orders order_participants cluster_members orders
      = Some active
      /\ OrderList.fetchOrders (Some p) OrderList.history order_participants cluster_members orders
         = Some past
      /\ (In row active <-> ~ In row past)
      /\ (In row active \/ In row past).
Proof.
  intros p parts members orders row Hrole Hin Hsup. unfold OrderList.fetchOrders.
  rewrite Hrole. eexists. eexists. split; [reflexivity|]. split; [reflexivity|].
  rewrite !by_tab_In, !filter_In, !String.eqb_eq.
  destruct (OrderList.finished (Order.status (OrderList.order row))); split;
    intuition congruence.
Qed.

Lemma supplier_orders_split_between_active_and_history_witness :
  exists active past,
    OrderList.fetchOrders (Some Scenario.the_supplier) OrderList.my_orders [] []
                          [OrderList.mkRow (Scenario.order_in ready) "c1" 7]
    = Some active
    /\ OrderList.fetchOrders (Some Scenario.the_supplier) OrderList.history [] []
                             [OrderList.mkRow (Scenario.order_in ready) "c1" 7]
       = Some past
    /\ (In (OrderList.mkRow (Scenario.order_in ready) "c1" 7) active
        <-> ~ In (OrderList.mkRow (Scenario.order_in ready) "c1" 7) past)
    /\ (In (OrderList.mkRow (Scenario.order_in ready) "c1" 7) active
        \/ In (OrderList.mkRow (Scenario.order_in ready) "c1" 7) past).
Proof.
  apply (supplier_orders_split_between_active_and_history Scenario.the_supplier [] []
           [OrderList.mkRow (Scenario.order_in ready) "c1" 7]
           (OrderList.mkRow (Scenario.order_in ready) "c1" 7)).
  - reflexivity.
  - now left.
  - reflexivity.
Defined.


(* ================================================================== *)
(** * The payment receipt *)

(** What the modal's actions keep true of the stored receipt and order. *)
Lemma receipt_invariant (order : Order.t) (actions : list PaymentReceipt.Action) :
  match PaymentReceipt.run order actions with
  | (None, final) => final = order
  | (Some r, final) =>
      PaymentReceipt.amount r = Order.total_amount order
      /\ PaymentReceipt.order_id r = Order.id order
      /\ PaymentReceipt.supplier_id r = Order.supplier_id order
      /\ ((PaymentReceipt.payment_status r = PaymentReceipt.payment_pending
           /\ PaymentReceipt.delivery_confirmation_code r = None
           /\ final = order)
          \/ (PaymentReceipt.payment_status r = PaymentReceipt.paid
              /\ (exists code, PaymentReceipt.delivery_confirmation_code r = Some code
                               /\ code <> EmptyString)
              /\ final = OrderStatusUi.confirmPayment order))
  end.
Proof.
  unfold PaymentReceipt.run.
  rewrite <- (rev_involutive actions). induction (rev actions) as [|a l IH]; simpl.
  - reflexivity.
  - rewrite fold_left_app. simpl.
    destruct (fold_left PaymentReceipt.act (rev l) (None, order)) as [[r|] final].
    + destruct IH as (Ha & Ho & Hs & Hcases).
      destruct a as [profile number|code]; simpl; [auto|].
      destruct Hcases as [(Hp & Hc & Hf)|(Hp & Hc & Hf)]; rewrite Hp.
      * unfold PaymentReceipt.confirmPayment.
        destruct (String.eqb_spec code EmptyString) as [E|E].
        -- repeat split; try assumption. left. auto.
        -- simpl. repeat split; try assumption. right.
           repeat split; [now exists code|now rewrite Hf].
      * repeat split; try assumption. right. auto.
    + subst final. destruct a as [profile number|code]; simpl; [|reflexivity].
      destruct profile as [p|]; simpl; [|reflexivity].
      repeat split. left. auto.
Qed.

(** X24.  Through the receipt modal a receipt is paid only with a non-empty
    confirmation code and with the order marked delivered; a receipt is for
    the order's [total_amount] and never changes its amount; and once a
    receipt is paid no further action of the modal changes anything. *)
Theorem paid_receipt_has_code_and_delivered_order :
  forall (order : Order.t) (actions : list PaymentReceipt.Action)
         (r : PaymentReceipt.Receipt) (final : Order.t),
    PaymentReceipt.run order actions = (Some r, final) ->
    PaymentReceipt.amount r = Order.total_amount order
    /\ (PaymentReceipt.payment_status r = PaymentReceipt.paid ->
        (exists code, PaymentReceipt.delivery_confirmation_code r = Some code
                      /\ code <> EmptyString)
        /\ Order.status final = delivered
        /\ forall a, PaymentReceipt.act (Some r, final) a = (Some r, final))
    /\ (PaymentReceipt.payment_status r <> PaymentReceipt.paid -> final = order).
Proof.
  intros order actions r final H.
  pose proof (receipt_invariant order actions) as Hinv. rewrite H in Hinv.
  destruct Hinv as (Ha & _ & _ & Hcases). split; [exact Ha|]. split.
  - intros Hpaid. destruct Hcases as [(Hp & _)|(_ & Hc & Hf)]; [congruence|].
    split; [exact Hc|]. split; [now rewrite Hf|].
    intros a. destruct a as [profile number|code]; simpl; [reflexivity|].
    now rewrite Hpaid.
  - intros Hnot. destruct Hcases as [(_ & _ & Hf)|(Hp & _)]; [exact Hf|contradiction].
Qed.

Lemma paid_receipt_has_code_and_delivered_order_witness :
  exists r final,
    PaymentReceipt.run (Scenario.order_in delivered)
      [ PaymentReceipt.Generate (Some Scenario.the_vendor) "RCP-1-7";
        PaymentReceipt.ConfirmWith "";
        PaymentReceipt.ConfirmWith "4711" ] = (Some r, final)
    /\ PaymentReceipt.amount r = Order.total_amount (Scenario.order_in delivered).
Proof.
  eexists. eexists. split; [reflexivity|].
  exact (proj1 (paid_receipt_has_code_and_delivered_order
                  (Scenario.order_in delivered)
                  [ PaymentReceipt.Generate (Some Scenario.the_vendor) "RCP-1-7";
                    PaymentReceipt.ConfirmWith "";
                    PaymentReceipt.ConfirmWith "4711" ] _ _ eq_refl)).
Defined.

Lemma clicks_keep_total (session : list (option Profile.t * OrderStatusUi.Control))
      (order final : Order.t) :
  OrderStatusUi.clicks session order = Some final ->
  Order.total_amount final = Order.total_amount order.
Proof.
  revert order. induction session as [|[profile c] rest IH]; intros order H; simpl in H.
  - now inversion H.
  - destruct (OrderStatusUi.click profile c order) as [mid|] eqn:E; [|discriminate].
    rewrite (IH mid H). exact (proj2 (proj2 (click_keeps_row _ _ _ _ E))).
Qed.

(** X25.  An order is created with [total_amount] 0 and neither a status
    control nor the receipt modal writes that column, so a receipt generated
    for an order created through [CreateOrderModal], after any clicks on its
    status controls, is for the amount 0. *)
Theorem receipt_of_created_order_is_for_zero :
  forall (creator : option Profile.t) (id supplier_id : string) (order shown : Order.t)
         (session : list (option Profile.t * OrderStatusUi.Control))
         (profile : option Profile.t) (receiptNumber : string)
         (r : PaymentReceipt.Receipt),
    CreateOrderModal.handleSubmit creator id supplier_id = Some order ->
    OrderStatusUi.clicks session order = Some shown ->
    PaymentReceipt.generateReceipt profile shown receiptNumber = Some r ->
    PaymentReceipt.amount r = 0
    /\ PaymentReceipt.payment_status r = PaymentReceipt.payment_pending.
Proof.
  intros creator id supplier_id order shown session profile number r Hc Hs Hg.
  unfold CreateOrderModal.handleSubmit in Hc.
  destruct creator; inversion Hc; subst order; clear Hc.
  apply clicks_keep_total in Hs. simpl in Hs.
  unfold PaymentReceipt.generateReceipt in Hg.
  destruct profile; inversion Hg; subst r. simpl. now rewrite Hs.
Qed.

Lemma receipt_of_created_order_is_for_zero_witness :
  exists r,
    PaymentReceipt.generateReceipt (Some Scenario.the_vendor)
                                   (Scenario.order_in delivered) "RCP-1-7" = Some r
    /\ PaymentReceipt.amount r = 0.
Proof.
  eexists. split; [reflexivity|].
  refine (proj1 (receipt_of_created_order_is_for_zero
                   (Some Scenario.the_vendor) "o1" "s1" (Scenario.order_in pending)
                   (Scenario.order_in delivered)
                   [ (Some Scenario.the_supplier, OrderStatusUi.Confirm);
                     (Some Scenario.the_supplier, OrderStatusUi.StartPreparing);
                     (Some Scenario.the_supplier, OrderStatusUi.MarkReady);
                     (Some Scenario.the_supplier, OrderStatusUi.MarkDelivered) ]
                   (Some Scenario.the_vendor) "RCP-1-7" _ eq_refl eq_refl eq_refl)).
Defined.


(* ================================================================== *)
(** * The bulk tiers of the inventory forms *)

Lemma positive_iff (x : Q) : InventoryForm.positive x = true <-> 0 < x.
Proof.
  unfold InventoryForm.positive. destruct (Qle_bool x 0) eqn:E; simpl.
  - apply Qle_bool_iff in E. split; [discriminate|lra].
  - split; [|reflexivity]. intros _. apply Qnot_le_lt. intros H.
    apply Qle_bool_iff in H. congruence.
Qed.

Lemma validTiers_In (bulkTiers : list BulkTier.t) (t : BulkTier.t) :
  In t (InventoryForm.validTiers bulkTiers)
  <-> In t bulkTiers /\ 0 < BulkTier.min_quantity t /\ 0 < BulkTier.price_per_unit t.
Proof.
  unfold InventoryForm.validTiers. rewrite filter_In, andb_true_iff, !positive_iff. tauto.
Qed.

Lemma validTiers_all (bulkTiers : list BulkTier.t) :
  (forall t, In t bulkTiers -> 0 < BulkTier.min_quantity t /\ 0 < BulkTier.price_per_unit t) ->
  InventoryForm.validTiers bulkTiers = bulkTiers.
Proof.
  unfold InventoryForm.validTiers. induction bulkTiers as [|x l IH]; intros H; simpl.
  - reflexivity.
  - destruct (H x (or_introl eq_refl)) as [Hm Hp].
    rewrite (proj2 (positive_iff _) Hm), (proj2 (positive_iff _) Hp). simpl. f_equal.
    apply IH. intros t Ht. apply H. now right.
Qed.

Lemma validTiers_none (bulkTiers : list BulkTier.t) :
  (forall t, In t bulkTiers -> BulkTier.price_per_unit t <= 0) ->
  InventoryForm.validTiers bulkTiers = [].
Proof.
  unfold InventoryForm.validTiers. induction bulkTiers as [|x l IH]; intros H; simpl.
  - reflexivity.
  - assert (Hp : InventoryForm.positive (BulkTier.price_per_unit x) = false).
    { unfold InventoryForm.positive.
      now rewrite (proj2 (Qle_bool_iff _ _) (H x (or_introl eq_refl))). }
    rewrite Hp, andb_false_r. apply IH. intros t Ht. apply H. now right.
Qed.

(** X26.  The forms store only tiers with a positive threshold and a
    positive price, in the order entered, and silently drop the others: the
    three tiers [AddInventoryModal] starts with have price 0 and are not
    stored unless a price is entered, and tiers suggested while the base
    price field is empty or 0 are all priced 0 and none of them is stored. *)
Theorem forms_store_only_priced_tiers :
  forall (bulkTiers : list BulkTier.t),
    (forall t, In t (InventoryForm.validTiers bulkTiers) <->
               In t bulkTiers /\ 0 < BulkTier.min_quantity t /\ 0 < BulkTier.price_per_unit t)
    /\ InventoryForm.validTiers (InventoryForm.validTiers bulkTiers)
       = InventoryForm.validTiers bulkTiers
    /\ InventoryForm.validTiers InventoryForm.initialTiers = []
    /\ (forall suggestions,
          InventoryForm.validTiers (InventoryForm.suggestedTiers None suggestions) = []
          /\ InventoryForm.validTiers (InventoryForm.suggestedTiers (Some 0) suggestions) = []).
Proof.
  intros bulkTiers. split; [apply validTiers_In|]. split; [|split; [reflexivity|]].
  - apply validTiers_all. intros t Ht. apply validTiers_In in Ht. tauto.
  - intros suggestions. split; apply validTiers_none; intros t Ht;
      unfold InventoryForm.suggestedTiers in Ht; apply in_map_iff in Ht;
      destruct Ht as (s & <- & _); simpl; vm_compute; discriminate.
Qed.

(** X27.  Tiers suggested for a base price b > 0 from suggestions with a
    positive threshold and a discount from 0 up to, but not including, 100
    percent are all stored by the form, none is dearer than b, and an item
    with base price b and these tiers never reports negative savings. *)
Theorem suggested_tiers_are_stored_and_not_dearer :
  forall (b : Q) (suggestions : list InventoryForm.Suggestion) (inventory : InventoryItem.t)
         (q : Q),
    0 < b ->
    (forall s, In s suggestions ->
               0 < InventoryForm.s_min_quantity s
               /\ 0 <= InventoryForm.discount_percentage s
               /\ InventoryForm.discount_percentage s < 100) ->
    InventoryItem.base_price inventory = b ->
    InventoryItem.bulk_tiers inventory
    = Some (InventoryForm.suggestedTiers (Some b) suggestions) ->
    0 <= q ->
    InventoryForm.validTiers (InventoryForm.suggestedTiers (Some b) suggestions)
    = InventoryForm.suggestedTiers (Some b) suggestions
    /\ (forall t, In t (InventoryForm.suggestedTiers (Some b) suggestions) ->
                  0 < BulkTier.price_per_unit t /\ BulkTier.price_per_unit t <= b)
    /\ 0 <= PricingCalculator.savings inventory q.
Proof.
  intros b suggestions inventory q Hb Hs Hbase Htiers Hq.
  assert (Hbp : InventoryForm.basePrice (Some b) = b).
  { simpl. unfold Js.or_else. rewrite Qeq_bool_false; [reflexivity|]. intros E. lra. }
  assert (Hprice : forall t, In t (InventoryForm.suggestedTiers (Some b) suggestions) ->
                             0 < BulkTier.min_quantity t
                             /\ 0 < BulkTier.price_per_unit t
                             /\ BulkTier.price_per_unit t <= b).
  { intros t Ht. unfold InventoryForm.suggestedTiers in Ht. apply in_map_iff in Ht.
    destruct Ht as (s & <- & Hin). destruct (Hs s Hin) as (Hm & Hd0 & Hd1).
    cbn [BulkTier.min_quantity BulkTier.price_per_unit]. rewrite Hbp.
    set (d := InventoryForm.discount_percentage s) in *.
    assert (Hf : 0 < 1 - d / 100 /\ 1 - d / 100 <= 1).
    { assert (E : d / 100 == d * (1 # 100)) by (field; discriminate). rewrite E. lra. }
    destruct Hf as [Hf0 Hf1]. split; [exact Hm|]. split.
    - apply Qmult_lt_0_compat; assumption.
    - assert (Hle : b * (1 - d / 100) <= b * 1)
        by (apply Qmult_le_l; assumption).
      lra. }
  split; [|split].
  - apply validTiers_all. intros t Ht. destruct (Hprice t Ht). tauto.
  - intros t Ht. destruct (Hprice t Ht). tauto.
  - pose proof (bestPrice_le_base inventory q) as Hle.
    assert (Hall : forall tiers t, InventoryItem.bulk_tiers inventory = Some tiers ->
                                   In t tiers ->
                                   BulkTier.price_per_unit t
                                   <= InventoryItem.base_price inventory).
    { intros tiers t E Hin. rewrite Htiers in E. inversion E; subst tiers.
      rewrite Hbase. destruct (Hprice t Hin). tauto. }
    specialize (Hle Hall).
    unfold PricingCalculator.savings, PricingCalculator.originalTotal,
           PricingCalculator.discountedTotal.
    set (p := PricingCalculator.bestPrice inventory q) in *.
    set (b0 := InventoryItem.base_price inventory) in *.
    assert (H : 0 <= (b0 - p) * q) by (apply Qmult_le_0_compat; lra).
    assert (E : b0 * q - p * q == (b0 - p) * q) by ring.
    rewrite E. exact H.
Qed.

Lemma suggested_tiers_are_stored_and_not_dearer_witness :
  InventoryForm.validTiers
    (InventoryForm.suggestedTiers (Some 100) InventoryForm.fallbackSuggestions)
  = InventoryForm.suggestedTiers (Some 100) InventoryForm.fallbackSuggestions.
Proof.
  refine (proj1 (suggested_tiers_are_stored_and_not_dearer 100
                   InventoryForm.fallbackSuggestions
                   (InventoryItem.mk "rice" "Rice" "kg" 100 1
                      (Some (InventoryForm.suggestedTiers (Some 100)
                               InventoryForm.fallbackSuggestions)))
                   30 _ _ eq_refl eq_refl _)).
  - vm_compute. reflexivity.
  - intros s Hin. simpl in Hin.
    destruct Hin as [<-|[<-|[<-|[]]]]; vm_compute; repeat split; discriminate.
  - vm_compute. discriminate.
Defined.

Section TierEditing.
Import InventoryForm.

Lemma map_from_length {A B : Type} (f : A -> nat -> B) (i : nat) (l : list A) :
  List.length (map_from f i l) = List.length l.
Proof. revert i. induction l as [|x l IH]; intros i; simpl; [reflexivity|]. now rewrite IH. Qed.

Lemma map_from_nth {A B : Type} (f : A -> nat -> B) (i n : nat) (l : list A) :
  nth_error (map_from f i l) n = option_map (fun x => f x (i + n)%nat) (nth_error l n).
Proof.
  revert i n. induction l as [|x l IH]; intros i n; simpl.
  - now destruct n.
  - destruct n as [|n]; simpl.
    + now rewrite Nat.add_0_r.
    + rewrite IH. now rewrite Nat.add_succ_r.
Qed.

Lemma map_from_unchanged (f : BulkTier.t -> nat -> BulkTier.t) (i : nat) (l : list BulkTier.t) :
  (forall x n, (i <= n < i + List.length l)%nat -> f x n = x) ->
  map_from f i l = l.
Proof.
  revert i. induction l as [|x l IH]; intros i H; simpl; [reflexivity|].
  rewrite (H x i) by (simpl; lia). f_equal. apply IH.
  intros y n Hn. apply H. simpl. lia.
Qed.

Lemma filter_from_app {A : Type} (p : nat -> bool) (i : nat) (l l' : list A) :
  filter_from p i (l ++ l') = filter_from p i l ++ filter_from p (i + List.length l) l'.
Proof.
  revert i. induction l as [|x l IH]; intros i; simpl.
  - now rewrite Nat.add_0_r.
  - rewrite IH, Nat.add_succ_r. simpl. now destruct (p i).
Qed.

Lemma filter_from_all {A : Type} (p : nat -> bool) (i : nat) (l : list A) :
  (forall n, (i <= n < i + List.length l)%nat -> p n = true) ->
  filter_from p i l = l.
Proof.
  revert i. induction l as [|x l IH]; intros i H; simpl; [reflexivity|].
  rewrite (H i) by (simpl; lia). f_equal. apply IH. intros n Hn. apply H. simpl. lia.
Qed.

Lemma filter_from_drop {A : Type} (index i : nat) (l : list A) :
  (i <= index < i + List.length l)%nat ->
  S (List.length (filter_from (fun n => negb (n =? index)%nat) i l)) = List.length l.
Proof.
  revert i. induction l as [|x l IH]; intros i H; simpl in *; [lia|].
  destruct (Nat.eqb_spec i index) as [E|E]; simpl.
  - f_equal. rewrite filter_from_all; [reflexivity|].
    intros n Hn. destruct (Nat.eqb_spec n index); [lia|reflexivity].
  - f_equal. apply IH. lia.
Qed.

(** X29.  [updateBulkTier] changes one field of the tier at the given index
    and nothing else: the number of tiers stays, the tier at the index reads
    back with the field set, every other tier reads back unchanged, and an
    index past the end changes nothing. *)
Theorem updateBulkTier_changes_one_tier :
  forall (index : nat) (field : Field) (value : Q) (prev : list BulkTier.t),
    List.length (updateBulkTier index field value prev) = List.length prev
    /\ nth_error (updateBulkTier index field value prev) index
       = option_map (fun tier => set_field tier field value) (nth_error prev index)
    /\ (forall n, n <> index ->
          nth_error (updateBulkTier index field value prev) n = nth_error prev n)
    /\ ((List.length prev <= index)%nat -> updateBulkTier index field value prev = prev).
Proof.
  intros index field value prev. unfold updateBulkTier.
  split; [apply map_from_length|]. split; [|split].
  - rewrite map_from_nth. simpl. rewrite Nat.eqb_refl. reflexivity.
  - intros n Hn. rewrite map_from_nth. simpl.
    destruct (Nat.eqb_spec n index); [contradiction|].
    now destruct (nth_error prev n).
  - intros Hlen. apply map_from_unchanged. intros x n Hn.
    destruct (Nat.eqb_spec n index); [lia|reflexivity].
Qed.

(** X30.  [addBulkTier] appends an empty tier and [removeBulkTier] at the
    index of that tier takes it away again; [removeBulkTier] at an index of
    the list shortens it by one tier, and at an index past the end it changes
    nothing.  The appended tier has price 0, so the form does not store it
    unless it is filled in. *)
Theorem add_then_remove_bulk_tier :
  forall (prev : list BulkTier.t),
    removeBulkTier (List.length prev) (addBulkTier prev) = prev
    /\ (forall index, (index < List.length prev)%nat ->
          S (List.length (removeBulkTier index prev)) = List.length prev)
    /\ (forall index, (List.length prev <= index)%nat -> removeBulkTier index prev = prev)
    /\ validTiers (addBulkTier prev) = validTiers prev.
Proof.
  intros prev. unfold removeBulkTier, addBulkTier. split; [|split; [|split]].
  - rewrite filter_from_app. simpl. rewrite Nat.eqb_refl. simpl. rewrite app_nil_r.
    apply filter_from_all. intros n Hn.
    destruct (Nat.eqb_spec n (List.length prev)); [lia|reflexivity].
  - intros index Hi. apply filter_from_drop. lia.
  - intros index Hi. apply filter_from_all. intros n Hn.
    destruct (Nat.eqb_spec n index); [lia|reflexivity].
  - unfold validTiers. rewrite filter_app. simpl. apply app_nil_r.
Qed.

End TierEditing.
